(** * MCP SSE test client (test-mcp-python-client/mcp_sse_client.py)

    A shallow embedding of the script: the class [MCPSSEClient] with its
    methods [connect_sse], [send_mcp_request], [test_initialize],
    [test_list_tools], [test_call_tool], [test_call_tool_with_agent_id], and
    the scripted sequence [main].

    Python values that come out of [json.loads] / [response.json()] are
    modelled by the type [json]; [None] is [JNull].  A method is a
    computation in a state-and-exception monad over the client object and
    the log of observable effects (every [print], every HTTP request).  A
    raised exception keeps the state changes made before it, as in Python.

    What the script does not define itself is taken from an environment
    [env]: the outcome of each [requests.get] / [requests.post], and
    [urllib.parse.urljoin]. *)

From Stdlib Require Import String Ascii List ZArith Lia Bool Arith.
From Stdlib Require Import Floats.SpecFloat.
Import ListNotations.
Local Open Scope string_scope.
Local Open Scope list_scope.

(* ================================================================== *)
(** ** Python values *)

(** A decoded JSON document, as Python holds it: [None], [bool], [int],
    [float], [str], [list], [dict].  A [dict] is the list of its items in
    insertion order (its keys are pairwise distinct). *)
#[local] Set Warnings "-register-all".
Inductive json : Type :=
| JNull
| JBool (b : bool)
| JInt (z : Z)
| JFloat (f : spec_float)
| JStr (s : string)
| JArr (items : list json)
| JObj (fields : list (string * json)).

(** The exception classes the script can meet.  [HTTPError] and
    [ConnectionError] derive from [requests.exceptions.RequestException];
    [RequestsJSONDecodeError] is [requests.exceptions.JSONDecodeError],
    which derives from both [RequestException] and [json.JSONDecodeError]. *)
Inductive exn_class : Type :=
| RequestException
| HTTPError
| ConnectionError
| JSONDecodeError
| RequestsJSONDecodeError
| ValueError
| TypeError
| AttributeError
| KeyError
| IndexError
| UnboundLocalError
| UnicodeEncodeError
| OtherException.

Inductive exn : Type := Exn (cls : exn_class) (msg : string).

Definition class_of (e : exn) : exn_class := let (c, _) := e in c.

(** [str(e)] *)
Definition message (e : exn) : string := let (_, m) := e in m.

(** [isinstance(e, requests.exceptions.RequestException)] *)
Definition is_RequestException (e : exn) : bool :=
  match class_of e with
  | RequestException | HTTPError | ConnectionError | RequestsJSONDecodeError => true
  | _ => false
  end.

(** [isinstance(e, json.JSONDecodeError)] *)
Definition is_JSONDecodeError (e : exn) : bool :=
  match class_of e with
  | JSONDecodeError | RequestsJSONDecodeError => true
  | _ => false
  end.

(** The outcome of evaluating a Python expression. *)
Inductive result (A : Type) : Type :=
| Return (a : A)
| Raise (e : exn).
Arguments Return {A} a.
Arguments Raise {A} e.

Definition rbind {A B} (r : result A) (f : A -> result B) : result B :=
  match r with
  | Return a => f a
  | Raise e => Raise e
  end.

(** Truth value of a Python object ([if x:]). *)
Definition float_is_zero (f : spec_float) : bool :=
  match f with
  | S754_zero _ => true
  | _ => false
  end.

Definition truthy (v : json) : bool :=
  match v with
  | JNull => false
  | JBool b => b
  | JInt z => negb (Z.eqb z 0)
  | JFloat f => negb (float_is_zero f)
  | JStr s => negb (String.eqb s "")
  | JArr items => match items with [] => false | _ :: _ => true end
  | JObj fields => match fields with [] => false | _ :: _ => true end
  end.

(** [x or {}] *)
Definition or_empty_dict (x : json) : json :=
  if truthy x then x else JObj [].

(** Truth value of an [Optional[str]] attribute. *)
Definition truthy_str (o : option string) : bool :=
  match o with
  | None => false
  | Some s => negb (String.eqb s "")
  end.

(** *** Strings *)

(** [needle in hay] on two [str]. *)
Fixpoint contains (needle hay : string) : bool :=
  if String.prefix needle hay then true
  else match hay with
       | EmptyString => false
       | String _ rest => contains needle rest
       end.

(** [hay.split(sep)] for a non-empty [sep]: the pieces between the
    leftmost, non-overlapping occurrences of [sep].  [skip] counts the
    characters of a matched separator still to be passed over, [cur] is the
    piece being collected. *)
Fixpoint split_from (sep : string) (skip : nat) (cur hay : string) : list string :=
  match hay with
  | EmptyString => [cur]
  | String c rest =>
      match skip with
      | S k => split_from sep k cur rest
      | O =>
          if String.prefix sep hay
          then cur :: split_from sep (String.length sep - 1) "" rest
          else split_from sep 0 (cur ++ String c "") rest
      end
  end.

Definition split (hay sep : string) : list string := split_from sep 0 "" hay.

(** A [str] is held as the bytes of its UTF-8 encoding, a lone surrogate
    (U+D800 to U+DFFF, which [json.loads] accepts as an escape) as the three
    bytes that encoding would give it: [ED], then [A0] to [BF], then one
    more.  In well-formed UTF-8 the byte after [ED] is below [A0]. *)
Fixpoint has_surrogate (s : string) : bool :=
  match s with
  | String a rest =>
      match rest with
      | String b _ =>
          (Ascii.eqb a "237"%char && Nat.leb 160 (nat_of_ascii b)) || has_surrogate rest
      | EmptyString => false
      end
  | EmptyString => false
  end.

(** The characters of a [str], each as a one-character [str]. *)
Fixpoint chars (s : string) : list string :=
  match s with
  | EmptyString => []
  | String c rest => String c "" :: chars rest
  end.

(** *** Dictionaries *)

Fixpoint lookup (key : string) (fields : list (string * json)) : option json :=
  match fields with
  | [] => None
  | (k, v) :: rest => if String.eqb k key then Some v else lookup key rest
  end.

Definition has_key (key : string) (fields : list (string * json)) : bool :=
  match lookup key fields with
  | Some _ => true
  | None => false
  end.

(** [v == s] for a [str] [s]. *)
Definition eq_str (s : string) (v : json) : bool :=
  match v with
  | JStr t => String.eqb t s
  | _ => false
  end.

(** A lone surrogate somewhere in a value, in a string or in a key: what
    makes the text of [json.dumps(v, ensure_ascii=False)] hold one. *)
Fixpoint holds_surrogate (v : json) : bool :=
  match v with
  | JStr s => has_surrogate s
  | JArr items => existsb holds_surrogate items
  | JObj fields =>
      existsb (fun kv : string * json =>
                 let (k, x) := kv in has_surrogate k || holds_surrogate x) fields
  | _ => false
  end.

(** A lone surrogate in [str(v)], the text an f-string shows for [v]: a
    [str] is shown as it is, the strings inside a list or a dict are shown
    by [repr], which escapes a surrogate. *)
Definition shown_surrogate (v : json) : bool :=
  match v with
  | JStr s => has_surrogate s
  | _ => false
  end.

(** *** The operators the script applies to decoded JSON *)

(** [needle in v] for a [str] [needle]: substring of a [str], element of
    a [list], key of a [dict]; [TypeError] on anything else. *)
Definition py_in (needle : string) (v : json) : result bool :=
  match v with
  | JStr s => Return (contains needle s)
  | JArr items => Return (existsb (eq_str needle) items)
  | JObj fields => Return (has_key needle fields)
  | _ => Raise (Exn TypeError "argument is not iterable")
  end.

(** [v.get(key, default)]: only a [dict] has [get]. *)
Definition py_get (v : json) (key : string) (default : json) : result json :=
  match v with
  | JObj fields =>
      Return (match lookup key fields with Some x => x | None => default end)
  | _ => Raise (Exn AttributeError "object has no attribute 'get'")
  end.

(** [v[key]] for a [str] [key]. *)
Definition py_getitem (v : json) (key : string) : result json :=
  match v with
  | JObj fields =>
      match lookup key fields with
      | Some x => Return x
      | None => Raise (Exn KeyError key)
      end
  | JArr _ => Raise (Exn TypeError "list indices must be integers or slices, not str")
  | JStr _ => Raise (Exn TypeError "string indices must be integers, not 'str'")
  | _ => Raise (Exn TypeError "object is not subscriptable")
  end.

(** [v[0]] *)
Definition py_first (v : json) : result json :=
  match v with
  | JArr items =>
      match items with
      | x :: _ => Return x
      | [] => Raise (Exn IndexError "list index out of range")
      end
  | JStr s =>
      match s with
      | String c _ => Return (JStr (String c ""))
      | EmptyString => Raise (Exn IndexError "string index out of range")
      end
  | JObj _ => Raise (Exn KeyError "0")
  | _ => Raise (Exn TypeError "object is not subscriptable")
  end.

(** What [for x in v] ranges over: the elements of a [list], the keys of
    a [dict], the characters of a [str]. *)
Definition py_iter (v : json) : result (list json) :=
  match v with
  | JArr items => Return items
  | JObj fields => Return (map (fun kv => JStr (fst kv)) fields)
  | JStr s => Return (map JStr (chars s))
  | _ => Raise (Exn TypeError "object is not iterable")
  end.

(** [v.split(sep)]: only a [str] has [split]. *)
Definition py_split (v : json) (sep : string) : result (list string) :=
  match v with
  | JStr s => Return (split s sep)
  | _ => Raise (Exn AttributeError "object has no attribute 'split'")
  end.

(** [parts[i]] on a list of [str]. *)
Definition py_index (parts : list string) (i : nat) : result string :=
  match nth_error parts i with
  | Some p => Return p
  | None => Raise (Exn IndexError "list index out of range")
  end.

(** [urljoin]'s second argument is a [str] wherever the script reaches it. *)
Definition as_str (v : json) : result string :=
  match v with
  | JStr s => Return s
  | _ => Raise (Exn TypeError "expected str")
  end.

(* ================================================================== *)
(** ** The environment and the observable effects *)

(** One event of an SSE stream as [sseclient] yields it.  [data_json] is
    what [json.loads(event.data)] evaluates to. *)
Record SSEEvent : Type := {
  event : string;
  data : string;
  data_json : result json
}.

(** What [SSEClient(response).events()] yields, one step at a time: the
    stream ends, reading it raises, or there is a next event. *)
Inductive sse_stream : Type :=
| SseClosed
| SseFails (e : exn)
| SseNext (ev : SSEEvent) (rest : sse_stream).

(** A [requests.Response].  [json_result] is what [response.json()]
    evaluates to, [events] what [sseclient] reads from the body. *)
Record Response : Type := {
  status_code : Z;
  content : string;
  text : string;
  json_result : result json;
  events : sse_stream
}.

Definition headers : Type := list (string * string).

(** The world outside the script.  [requests_post n url body hdrs] is the
    outcome of the POST issued after [n] earlier ones. *)
Record env : Type := {
  requests_get : string -> headers -> result Response;
  requests_post : nat -> string -> json -> headers -> result Response;
  urljoin : string -> string -> result string
}.

(** [Response.raise_for_status()] of requests: [HTTPError] exactly for the
    client-error (4xx) and server-error (5xx) status codes.  The message of
    the exception, which names the status and the URL, is not modelled. *)
Definition raise_for_status (r : Response) : result unit :=
  if (400 <=? status_code r)%Z && (status_code r <? 600)%Z
  then Raise (Exn HTTPError "HTTP error status")
  else Return tt.

(** One constructor per [print] statement of the script, with the values
    it interpolates (named after the place of the statement). *)
Inductive output : Type :=
| PConnecting (sse_url : string)                 (* connect_sse, line 24 *)
| PSseEvent (ev data : string)                   (* line 36 *)
| PSessionId (sid : string)                      (* line 47 *)
| PMessageUrl (url : string)                     (* line 48 *)
| PSseError (e : exn)                            (* line 55 *)
| PNoEndpoint                                    (* send_mcp_request, line 63 *)
| PSending (url : string)                        (* line 73 *)
| PRequestContent (body : json)                  (* line 74 *)
| PStatus (code : Z)                             (* line 86 *)
| PResponseContent (body : json)                 (* line 87 *)
| PStatusNoContent (code : Z)                    (* line 90 *)
| PRequestError (e : exn)                        (* line 94 *)
| PJsonError (e : exn)                           (* line 97 *)
| PRawResponse (text : string)                   (* line 98 *)
| PTestInitialize                                (* line 103 *)
| PTestListTools                                 (* line 115 *)
| PTestCallTool (tool_name : json)               (* line 120 *)
| PTestCallToolAgent (tool_name : json) (agent_id : string)  (* line 128 *)
| PTitle                                         (* main, line 140 *)
| PServer (base_url : string)                    (* line 141 *)
| PEndpointId (endpoint_id : string)             (* line 142 *)
| PRule                                          (* line 143 *)
| PConnectFailed                                 (* line 150 *)
| PConnectOk                                     (* line 153 *)
| PInitOk                                        (* line 158 *)
| PInitFailed                                    (* line 160 *)
| PListOk                                        (* line 165 *)
| PCallOk (tool_name : json)                     (* lines 183, 214 *)
| PCallFailed (tool_name : json)                 (* lines 185, 216 *)
| PPostCallOk (tool_name : json)                 (* line 204 *)
| PPostCallFailed (tool_name : json)             (* line 206 *)
| PListFailed                                    (* line 218 *)
| PDone.                                         (* line 220 *)

(** The prints whose text can hold a lone surrogate, each with the test
    for it (see [print] below for the choice). *)
Definition unprintable (o : output) : bool :=
  match o with
  | PSessionId sid => has_surrogate sid
  | PMessageUrl url => has_surrogate url
  | PSseError e => has_surrogate (message e)
  | PSending url => has_surrogate url
  | PResponseContent body => holds_surrogate body
  | PRawResponse text => has_surrogate text
  | PTestCallToolAgent tool_name agent_id =>
      shown_surrogate tool_name || has_surrogate agent_id
  | PTestCallTool tool_name
  | PCallOk tool_name
  | PCallFailed tool_name
  | PPostCallOk tool_name
  | PPostCallFailed tool_name => shown_surrogate tool_name
  | _ => false
  end.

(** The exception of a [print] that cannot encode its text. *)
Definition unicode_error : exn :=
  Exn UnicodeEncodeError "'utf-8' codec can't encode character: surrogates not allowed".

Inductive effect : Type :=
| Print (o : output)
| HttpGet (url : string) (hdrs : headers)
| HttpPost (url : string) (body : json) (hdrs : headers).

(** The HTTP requests of a log, and its POSTs. *)
Definition is_http (e : effect) : bool :=
  match e with
  | Print _ => false
  | _ => true
  end.

Definition http_requests (log : list effect) : list effect := filter is_http log.

Fixpoint posts (log : list effect) : list (string * json) :=
  match log with
  | [] => []
  | HttpPost url body _ :: rest => (url, body) :: posts rest
  | _ :: rest => posts rest
  end.

(* ================================================================== *)
(** ** The client object and the monad of its methods *)

Record MCPSSEClient : Type := {
  base_url : string;
  endpoint_id : string;
  sse_url : string;
  session_id : option string;
  message_url : option string
}.

(** [MCPSSEClient.__init__] *)
Definition MCPSSEClient_init (base endpoint : string) : MCPSSEClient :=
  {| base_url := base;
     endpoint_id := endpoint;
     sse_url := base ++ "/mcp/" ++ endpoint ++ "/sse";
     session_id := None;
     message_url := None |}.

Record machine : Type := {
  self : MCPSSEClient;
  log : list effect
}.

Definition M (A : Type) : Type := machine -> result A * machine.

Definition ret {A} (a : A) : M A := fun m => (Return a, m).

Definition raise {A} (e : exn) : M A := fun m => (Raise e, m).

Definition bind {A B} (x : M A) (f : A -> M B) : M B :=
  fun m =>
    match x m with
    | (Return a, m') => f a m'
    | (Raise e, m') => (Raise e, m')
    end.

Declare Scope py_scope.
Delimit Scope py_scope with py.
Notation "x <- c1 ;; c2" := (bind c1 (fun x => c2))
  (at level 61, c1 at next level, right associativity) : py_scope.
Notation "c1 ;; c2" := (bind c1 (fun _ => c2))
  (at level 61, right associativity) : py_scope.
Local Open Scope py_scope.

Definition lift {A} (r : result A) : M A := fun m => (r, m).

(** Runs [x] and hands its outcome, raised or returned, to the caller:
    the entry of a [try] block. *)
Definition attempt {A} (x : M A) : M (result A) :=
  fun m => let (r, m') := x m in (Return r, m').

Definition emit (e : effect) : M unit :=
  fun m => (Return tt, {| self := self m; log := log m ++ [e] |}).

(** [print] to a UTF-8 standard output (the script prints Chinese text and
    emoji): the text is encoded before anything is written, and a lone
    surrogate in it raises [UnicodeEncodeError].  A text can hold one when
    it comes from the server -- the session identifier and message URL cut
    from the decoded uri (lines 47, 48, 73), the message of an exception
    that quotes the uri (line 55), a decoded body (line 87, dumped with
    [ensure_ascii=False]), the raw text of a response, which requests
    decodes under the charset the server names (line 98) -- or from an
    argument of the method: a tool name (lines 120, 128, 183-216; a [str]
    is shown as it is, inside a list or a dict [str()] escapes it) and the
    agent id (line 128).  The other texts hold none: the constants of
    [main] and the fields the client is constructed with from them (lines
    16-18), event text, which sseclient decodes as strict UTF-8 (line 36),
    the request of line 74 ([json.dumps] escapes by default), and at lines
    94 and 97 the message of an exception of requests or json, which quotes
    the message URL that line 73 has printed, or a position in the body. *)
Definition print (o : output) : M unit :=
  if unprintable o then raise unicode_error else emit (Print o).

Definition get_self : M MCPSSEClient := fun m => (Return (self m), m).

Definition set_session_id (sid : string) : M unit :=
  fun m =>
    (Return tt,
     {| self := {| base_url := base_url (self m);
                   endpoint_id := endpoint_id (self m);
                   sse_url := sse_url (self m);
                   session_id := Some sid;
                   message_url := message_url (self m) |};
        log := log m |}).

Definition set_message_url (url : string) : M unit :=
  fun m =>
    (Return tt,
     {| self := {| base_url := base_url (self m);
                   endpoint_id := endpoint_id (self m);
                   sse_url := sse_url (self m);
                   session_id := session_id (self m);
                   message_url := Some url |};
        log := log m |}).

(** [requests.get(url, stream=True, headers=hdrs)] *)
Definition http_get (E : env) (url : string) (hdrs : headers) : M Response :=
  emit (HttpGet url hdrs) ;; lift (requests_get E url hdrs).

(** [requests.post(url, json=body, headers=hdrs)] *)
Definition http_post (E : env) (url : string) (body : json) (hdrs : headers) : M Response :=
  fun m =>
    (emit (HttpPost url body hdrs) ;;
     lift (requests_post E (List.length (posts (log m))) url body hdrs)) m.

(* ================================================================== *)
(** ** The methods of [MCPSSEClient] *)

(** The body of the [for event in client.events()] loop of [connect_sse]
    (lines 36-52) on one event: [true] is [return True], [false] is the
    [break] of line 52, after which line 58 returns [False]. *)
Definition connect_sse_event (E : env) (ev : SSEEvent) : M bool :=
  print (PSseEvent (event ev) (data ev)) ;;
  if String.eqb (event ev) "endpoint" then
    endpoint_data <- lift (data_json ev) ;;
    relative_uri <- lift (py_get endpoint_data "uri" JNull) ;;
    if truthy relative_uri then
      found <- lift (py_in "session_id=" relative_uri) ;;
      if found then
        parts <- lift (py_split relative_uri "session_id=") ;;
        sid <- lift (py_index parts 1) ;;
        set_session_id sid ;;
        c <- get_self ;;
        uri <- lift (as_str relative_uri) ;;
        url <- lift (urljoin E (base_url c) uri) ;;
        set_message_url url ;;
        print (PSessionId sid) ;;
        print (PMessageUrl url) ;;
        ret true
      else ret false
    else ret false
  else ret false.

(** [connect_sse] (lines 22-58).  The loop runs its body on the first
    event only: the body ends in [return True] or in [break]. *)
Definition connect_sse (E : env) : M bool :=
  c <- get_self ;;
  print (PConnecting (sse_url c)) ;;
  r <- attempt
         (response <- http_get E (sse_url c)
                        [("Accept", "text/event-stream"); ("Cache-Control", "no-cache")] ;;
          lift (raise_for_status response) ;;
          match events response with
          | SseClosed => ret false
          | SseFails e => raise e
          | SseNext ev _ => connect_sse_event E ev
          end) ;;
  match r with
  | Return b => ret b
  | Raise e => print (PSseError e) ;; ret false
  end.

(** The [except] clauses of [send_mcp_request] (lines 93-99), in order.
    [response] is the local variable of that name: unbound while
    [requests.post] has not returned. *)
Definition send_mcp_request_except (response : option Response) (e : exn) : M json :=
  if is_RequestException e then
    print (PRequestError e) ;; ret JNull
  else if is_JSONDecodeError e then
    print (PJsonError e) ;;
    match response with
    | Some r => print (PRawResponse (text r)) ;; ret JNull
    | None => raise (Exn UnboundLocalError "response")
    end
  else raise e.

(** Lines 82-91, once [requests.post] has returned [response]. *)
Definition send_mcp_request_read (response : Response) : M json :=
  lift (raise_for_status response) ;;
  if negb (String.eqb (content response) "") then
    result <- lift (json_result response) ;;
    print (PStatus (status_code response)) ;;
    print (PResponseContent result) ;;
    ret result
  else
    print (PStatusNoContent (status_code response)) ;;
    ret (JObj [("status", JStr "success"); ("status_code", JInt (status_code response))]).

(** The [str] held by an [Optional[str]] attribute that tested truthy. *)
Definition the_str (o : option string) : string :=
  match o with
  | Some s => s
  | None => ""
  end.

(** [send_mcp_request] (lines 60-99); [params] is [JNull] for [None]. *)
Definition send_mcp_request (E : env) (method : string) (params : json) (request_id : Z) : M json :=
  c <- get_self ;;
  if negb (truthy_str (message_url c)) then
    print PNoEndpoint ;; ret JNull
  else
    let url := the_str (message_url c) in
    let mcp_request :=
      JObj [("jsonrpc", JStr "2.0");
            ("id", JInt request_id);
            ("method", JStr method);
            ("params", or_empty_dict params)] in
    print (PSending url) ;;
    print (PRequestContent mcp_request) ;;
    posted <- attempt (http_post E url mcp_request [("Content-Type", "application/json")]) ;;
    match posted with
    | Raise e => send_mcp_request_except None e
    | Return response =>
        r <- attempt (send_mcp_request_read response) ;;
        match r with
        | Raise e => send_mcp_request_except (Some response) e
        | Return result => ret result
        end
    end.

(** The params of [initialize] (lines 104-111). *)
Definition initialize_params : json :=
  JObj [("protocolVersion", JStr "2024-11-05");
        ("capabilities", JObj []);
        ("clientInfo", JObj [("name", JStr "mcp-sse-test-client");
                             ("version", JStr "1.0.0")])].

(** [test_initialize] (lines 101-111) *)
Definition test_initialize (E : env) : M json :=
  print PTestInitialize ;;
  send_mcp_request E "initialize" initialize_params 1.

(** [test_list_tools] (lines 113-116) *)
Definition test_list_tools (E : env) : M json :=
  print PTestListTools ;;
  send_mcp_request E "tools/list" JNull 1.

(** [test_call_tool] (lines 118-124); [arguments] is [JNull] for [None]. *)
Definition test_call_tool (E : env) (tool_name : json) (arguments : json) : M json :=
  print (PTestCallTool tool_name) ;;
  send_mcp_request E "tools/call"
    (JObj [("name", tool_name); ("arguments", or_empty_dict arguments)])
    1.

(** [test_call_tool_with_agent_id] (lines 126-132) *)
Definition test_call_tool_with_agent_id (E : env) (tool_name : json) (agent_id : string) : M json :=
  print (PTestCallToolAgent tool_name agent_id) ;;
  send_mcp_request E "tools/call"
    (JObj [("name", tool_name); ("arguments", JObj [("agentId", JStr agent_id)])])
    1.

(* ================================================================== *)
(** ** The scripted sequence *)

Definition BASE_URL : string := "http://localhost:3000".
Definition ENDPOINT_ID : string := "2764a1cc-4513-4726-ae88-05d33d164493".

(** [agent_id] of line 180 and [test_data] of lines 197-201. *)
Definition agent_id : string := "98e2b1cf-3a7d-4f6c-9b0a-5d8c7e6f5432".

Definition test_data : json :=
  JObj [("agentId", JStr "98e2b1cf-3a7d-4f6c-9b0a-5d8c7e6f5432");
        ("botId", JStr "test-bot-123");
        ("appId", JStr "cli_a5f8e3d9b7c401ab")].

(** The search loops of lines 172-176 and 188-192:
    [for tool in tools: if needle in tool.get('name', ''): found = tool; break],
    with [found] starting as [None]. *)
Fixpoint first_tool_named (needle : string) (tools : list json) : result json :=
  match tools with
  | [] => Return JNull
  | tool :: rest =>
      rbind (py_get tool "name" (JStr "")) (fun name =>
      rbind (py_in needle name) (fun hit =>
      if hit then Return tool else first_tool_named needle rest))
  end.

(** Lines 171-216 of [main]: what is done with a truthy [tools]. *)
Definition call_tools (E : env) (tools : json) : M unit :=
  items <- lift (py_iter tools) ;;
  find_tool <- lift (first_tool_named "findByAgentId" items) ;;
  (if truthy find_tool then
     tool_name <- lift (py_get find_tool "name" JNull) ;;
     call_result <- test_call_tool_with_agent_id E tool_name agent_id ;;
     if truthy call_result then print (PCallOk tool_name)
     else print (PCallFailed tool_name)
   else ret tt) ;;
  items <- lift (py_iter tools) ;;
  save_tool <- lift (first_tool_named "save" items) ;;
  if truthy save_tool then
    tool_name <- lift (py_get save_tool "name" JNull) ;;
    call_result <- test_call_tool E tool_name (JObj [("body", test_data)]) ;;
    if truthy call_result then print (PPostCallOk tool_name)
    else print (PPostCallFailed tool_name)
  else
    first_tool <- lift (py_first tools) ;;
    tool_name <- lift (py_get first_tool "name" JNull) ;;
    if truthy tool_name then
      call_result <- test_call_tool E tool_name JNull ;;
      if truthy call_result then print (PCallOk tool_name)
      else print (PCallFailed tool_name)
    else ret tt.

(** Lines 164-218 of [main]: what is done with the outcome of [tools/list]. *)
Definition after_list_tools (E : env) (tools_result : json) : M unit :=
  if truthy tools_result then
    print PListOk ;;
    has_result <- lift (py_in "result" tools_result) ;;
    has_tools <- (if has_result : bool then
                    r <- lift (py_getitem tools_result "result") ;;
                    lift (py_in "tools" r)
                  else ret false) ;;
    if has_tools : bool then
      r <- lift (py_getitem tools_result "result") ;;
      tools <- lift (py_getitem r "tools") ;;
      if truthy tools then call_tools E tools else ret tt
    else ret tt
  else print PListFailed.

(** Lines 155-160 of [main]: the initialize step and its report. *)
Definition step_initialize (E : env) : M unit :=
  init_result <- test_initialize E ;;
  if truthy init_result then print PInitOk else print PInitFailed.

(** Lines 162-218 of [main]: the tools/list step and what follows from it. *)
Definition step_list_tools (E : env) : M unit :=
  tools_result <- test_list_tools E ;;
  after_list_tools E tools_result.

(** Lines 153-220 of [main], after a successful handshake. *)
Definition after_connect (E : env) : M unit :=
  print PConnectOk ;;
  step_initialize E ;;
  step_list_tools E ;;
  print PDone.

(** [main] (lines 134-220) as a method-like computation on the client it
    creates at line 146. *)
Definition main_script (E : env) : M unit :=
  print PTitle ;;
  print (PServer BASE_URL) ;;
  print (PEndpointId ENDPOINT_ID) ;;
  print PRule ;;
  connected <- connect_sse E ;;
  if negb connected then print PConnectFailed
  else after_connect E.

Definition main (E : env) : result unit * machine :=
  main_script E {| self := MCPSSEClient_init BASE_URL ENDPOINT_ID; log := [] |}.

(* ================================================================== *)
(** ** Vocabulary of the properties *)

(** [m] with [out] appended to its log. *)
Definition logged (m : machine) (out : list effect) : machine :=
  {| self := self m; log := log m ++ out |}.

(** A computation that leaves the client object as it found it, whether
    it returns or raises. *)
Definition keeps_self {A} (x : M A) : Prop :=
  forall m, self (snd (x m)) = self m.

(** The JSON-RPC envelope of lines 66-71. *)
Definition envelope (method : string) (params : json) (request_id : Z) : json :=
  JObj [("jsonrpc", JStr "2.0");
        ("id", JInt request_id);
        ("method", JStr method);
        ("params", params)].

Definition json_headers : headers := [("Content-Type", "application/json")].

(** The three effects with which [send_mcp_request] issues a request. *)
Definition request_effects (url : string) (body : json) : list effect :=
  [Print (PSending url); Print (PRequestContent body); HttpPost url body json_headers].

(** The failures requests documents: [requests.post] raises only
    [RequestException]s, [response.json()] only a JSON decode error. *)
Definition documented (posted : result Response) : Prop :=
  match posted with
  | Raise e => is_RequestException e = true
  | Return r =>
      match json_result r with
      | Raise e => is_JSONDecodeError e = true
      | Return _ => True
      end
  end.

Definition requests_contract (E : env) : Prop :=
  forall n url body hdrs, documented (requests_post E n url body hdrs).

(** What [send_mcp_request] returns for an outcome of the POST that is a
    documented one: [None] for a failure, the success marker for an empty
    body, the decoded body otherwise. *)
Definition returned (posted : result Response) : json :=
  match posted with
  | Raise _ => JNull
  | Return r =>
      match raise_for_status r with
      | Raise _ => JNull
      | Return _ =>
          if String.eqb (content r) "" then
            JObj [("status", JStr "success"); ("status_code", JInt (status_code r))]
          else
            match json_result r with
            | Return v => v
            | Raise _ => JNull
            end
      end
  end.

(** The requests of the initialize and tools/list steps. *)
Definition initialize_request : json := envelope "initialize" initialize_params 1.

Definition list_request : json := envelope "tools/list" (JObj []) 1.


(** The uri of an event of type [endpoint] whose decoded data is a dict
    with a [str] under [uri] that contains [session_id=]. *)
Definition endpoint_uri (ev : SSEEvent) : option string :=
  if String.eqb (event ev) "endpoint" then
    match data_json ev with
    | Return (JObj fields) =>
        match lookup "uri" fields with
        | Some (JStr uri) => if contains "session_id=" uri then Some uri else None
        | _ => None
        end
    | _ => None
    end
  else None.

Definition sse_headers : headers :=
  [("Accept", "text/event-stream"); ("Cache-Control", "no-cache")].

(** [c] with its two optional fields replaced. *)
Definition with_session (c : MCPSSEClient) (sid url : option string) : MCPSSEClient :=
  {| base_url := base_url c;
     endpoint_id := endpoint_id c;
     sse_url := sse_url c;
     session_id := sid;
     message_url := url |}.

(** What a handshake has to offer: the GET returns a response whose status
    is not an error status and whose first event has an [endpoint_uri].
    Then: the text that follows [session_id=] in it, and the outcome of
    resolving the uri against the base address. *)
Definition handshake (E : env) (c : MCPSSEClient) : option (string * result string) :=
  match requests_get E (sse_url c) sse_headers with
  | Return resp =>
      match raise_for_status resp with
      | Return _ =>
          match events resp with
          | SseNext ev _ =>
              match endpoint_uri ev with
              | Some uri =>
                  Some (nth 1 (split uri "session_id=") "", urljoin E (base_url c) uri)
              | None => None
              end
          | _ => None
          end
      | Raise _ => None
      end
  | Raise _ => None
  end.




(** Tool descriptors: a dict whose [name], when present, is a [str]. *)
Definition plain_tool (tool : json) : bool :=
  match tool with
  | JObj fields =>
      match lookup "name" fields with
      | None | Some (JStr _) => true
      | Some _ => false
      end
  | _ => false
  end.

(** A descriptor without a [name] field. *)
Definition nameless (tool : json) : Prop :=
  exists fields, tool = JObj fields /\ lookup "name" fields = None.

(** [tool] is a dict whose [name] is a [str] containing [needle]. *)
Definition name_has (needle : string) (tool : json) : bool :=
  match tool with
  | JObj fields =>
      match lookup "name" fields with
      | Some (JStr s) => contains needle s
      | _ => false
      end
  | _ => false
  end.

(** [tool.get('name')] of a dict. *)
Definition name_of (tool : json) : json :=
  match tool with
  | JObj fields => match lookup "name" fields with Some v => v | None => JNull end
  | _ => JNull
  end.

(** The body of a [tools/call] request. *)
Definition tools_call (tool_name arguments : json) : json :=
  envelope "tools/call" (JObj [("name", tool_name); ("arguments", arguments)]) 1.

Definition find_call (tool : json) : json :=
  tools_call (name_of tool) (JObj [("agentId", JStr agent_id)]).

Definition save_call (tool : json) : json :=
  tools_call (name_of tool) (JObj [("body", test_data)]).

Definition plain_call (tool : json) : json :=
  tools_call (name_of tool) (JObj []).

(** The [tools/call] bodies that lines 171-216 post for a list of plain
    tool descriptors, in order: the one for the first tool named like
    [findByAgentId], if any; then the one for the first tool named like
    [save], if any, and otherwise the one for the first tool of the list,
    if its name is truthy. *)
Definition issued_calls (tools : list json) : list json :=
  match find (name_has "findByAgentId") tools with
  | Some t => [find_call t]
  | None => []
  end ++
  match find (name_has "save") tools with
  | Some t => [save_call t]
  | None =>
      match tools with
      | t :: _ => if truthy (name_of t) then [plain_call t] else []
      | [] => []
      end
  end.

(** The requests of a log that are [tools/call]s. *)
Definition is_tools_call (p : string * json) : bool :=
  match snd p with
  | JObj fields => match lookup "method" fields with
                   | Some (JStr s) => String.eqb s "tools/call"
                   | _ => false
                   end
  | _ => false
  end.

Definition tools_calls (l : list effect) : list (string * json) :=
  filter is_tools_call (posts l).

(** The tools/list results of the empty case: [result.tools] is the empty
    list, or the [result] key or the [tools] key is missing. *)
Definition no_tools (tools_result : json) : Prop :=
  exists fields,
    tools_result = JObj fields /\
    (lookup "result" fields = None \/
     exists r, lookup "result" fields = Some (JObj r) /\
               (lookup "tools" r = None \/ lookup "tools" r = Some (JArr []))).

(** The requests that the JSON-RPC methods of client [c] may issue: a POST
    to its message URL, with the JSON content type, that carries a JSON-RPC
    2.0 envelope with id 1. *)
Definition rpc_request (c : MCPSSEClient) (e : effect) : Prop :=
  match e with
  | HttpPost url body hdrs =>
      message_url c = Some url
      /\ hdrs = json_headers
      /\ exists method params, body = envelope method params 1
  | _ => False
  end.

(** A computation that leaves the client object alone, only adds to the
    log, and issues at most [n] HTTP requests, each an [rpc_request]. *)
Definition issues {A} (n : nat) (x : M A) : Prop :=
  forall m,
  exists out,
    snd (x m) = logged m out
    /\ Forall (rpc_request (self m)) (http_requests out)
    /\ List.length (http_requests out) <= n.

(** No tool of the list has a name containing [needle]. *)
Definition none_named (needle : string) (tools : list json) : bool :=
  forallb (fun t => negb (name_has needle t)) tools.

(** An outcome of the POST that can be printed: what [send_mcp_request]
    returns for it holds no lone surrogate, and neither does the raw text
    of the response. *)
Definition printable (posted : result Response) : Prop :=
  holds_surrogate (returned posted) = false
  /\ match posted with
     | Return r => has_surrogate (text r) = false
     | Raise _ => True
     end.

Definition replies_printable (E : env) : Prop :=
  forall n url body hdrs, printable (requests_post E n url body hdrs).

(** No tool of the list has a name that [print] cannot show. *)
Definition names_printable (tools : list json) : bool :=
  forallb (fun t => negb (shown_surrogate (name_of t))) tools.

(* ================================================================== *)
(** ** Example environments *)

Definition quoted (s : string) : string :=
  String "034"%char "" ++ s ++ String "034"%char "".

(** The event [endpoint] with data [{"uri": uri}]. *)
Definition endpoint_event (uri : string) : SSEEvent :=
  {| event := "endpoint";
     data := "{" ++ quoted "uri" ++ ": " ++ quoted uri ++ "}";
     data_json := Return (JObj [("uri", JStr uri)]) |}.

Definition sse_response (code : Z) (stream : sse_stream) : Response :=
  {| status_code := code;
     content := "";
     text := "";
     json_result := Raise (Exn RequestsJSONDecodeError "Expecting value");
     events := stream |}.

Definition json_response (code : Z) (body : string) (v : json) : Response :=
  {| status_code := code;
     content := body;
     text := body;
     json_result := Return v;
     events := SseClosed |}.

Definition empty_response (code : Z) : Response :=
  {| status_code := code;
     content := "";
     text := "";
     json_result := Raise (Exn RequestsJSONDecodeError "Expecting value");
     events := SseClosed |}.

Definition garbled_response (code : Z) (body : string) (e : exn) : Response :=
  {| status_code := code;
     content := body;
     text := body;
     json_result := Raise e;
     events := SseClosed |}.

(** [urljoin] at the arguments of the examples.  A uri that starts with
    one slash replaces the (empty) path of the base.  A uri that starts
    with [//[] opens a network location with an unbalanced bracket, on
    which urlsplit raises [ValueError("Invalid IPv6 URL")]. *)
Definition example_urljoin (base uri : string) : result string :=
  if String.prefix "//[" uri then Raise (Exn ValueError "Invalid IPv6 URL")
  else Return (base ++ uri)%string.

(** A server that answers the GET with status [code] and one endpoint
    event for [uri], and the POSTs with [replies], in order; once they
    are used up the connection is refused. *)
Definition scripted (code : Z) (uri : string) (replies : list (result Response)) : env :=
  {| requests_get := fun _ _ => Return (sse_response code (SseNext (endpoint_event uri) SseClosed));
     requests_post := fun n _ _ _ =>
       nth n replies (Raise (Exn ConnectionError "connection refused"));
     urljoin := example_urljoin |}.

Definition tool (name : string) : json := JObj [("name", JStr name)].

Definition tool_text (name : string) : string :=
  "{" ++ quoted "name" ++ ": " ++ quoted name ++ "}".

Definition tools_reply (body : string) (tools : list json) : result Response :=
  Return (json_response 200 body (JObj [("result", JObj [("tools", JArr tools)])])).

Definition ok_reply : result Response :=
  Return (json_response 200 ("{" ++ quoted "result" ++ ": {}}") (JObj [("result", JObj [])])).

(** The tool list of the selection example: a, findByAgentIdTool, saveThing. *)
Definition three_tools : list json :=
  [tool "a"; tool "findByAgentIdTool"; tool "saveThing"].

Definition three_tools_text : string :=
  "{" ++ quoted "result" ++ ": {" ++ quoted "tools" ++ ": ["
  ++ tool_text "a" ++ ", " ++ tool_text "findByAgentIdTool" ++ ", "
  ++ tool_text "saveThing" ++ "]}}".

Definition three_tools_server : env :=
  scripted 200 "/msg?session_id=abc123"
    [ok_reply; tools_reply three_tools_text three_tools; ok_reply; ok_reply].

(** A server whose tools/list result carries the empty list. *)
Definition no_tools_server : env :=
  scripted 200 "/msg?session_id=abc123"
    [ok_reply;
     tools_reply ("{" ++ quoted "result" ++ ": {" ++ quoted "tools" ++ ": []}}") []].

(** A server whose tools/list result is [{"result": null}]. *)
Definition null_result_server : env :=
  scripted 200 "/msg?session_id=abc123"
    [ok_reply;
     Return (json_response 200 ("{" ++ quoted "result" ++ ": null}") (JObj [("result", JNull)]))].

(** A tool descriptor without a name, and a server that lists it first,
    before a tool findByAgentId_v1. *)
Definition nameless_tool : json := JObj [("description", JStr "no name")].

Definition nameless_first : list json := [nameless_tool; tool "findByAgentId_v1"].

Definition nameless_first_server : env :=
  scripted 200 "/msg?session_id=abc123"
    [ok_reply;
     tools_reply ("{" ++ quoted "result" ++ ": {" ++ quoted "tools" ++ ": [{"
                  ++ quoted "description" ++ ": " ++ quoted "no name" ++ "}, "
                  ++ tool_text "findByAgentId_v1" ++ "]}}")
                 nameless_first;
     ok_reply].

(** A server that cannot be reached. *)
Definition unreachable : env :=
  {| requests_get := fun _ _ => Raise (Exn ConnectionError "connection refused");
     requests_post := fun _ _ _ _ => Raise (Exn ConnectionError "connection refused");
     urljoin := example_urljoin |}.

(** The lone surrogate U+D800, as [json.loads] decodes the escape of it. *)
Definition lone_surrogate : string :=
  String "237"%char (String "160"%char (String "128"%char "")).

(** A server whose answer to initialize is [{"result": "\ud800"}]. *)
Definition surrogate_reply_server : env :=
  scripted 200 "/msg?session_id=abc123"
    [Return (json_response 200 ("{" ++ quoted "result" ++ ": " ++ quoted "\ud800" ++ "}")
               (JObj [("result", JStr lone_surrogate)]))].

(** A uri whose network location holds the sign U+2100 and a lone
    surrogate.  urlsplit rejects such a network location with a
    [ValueError] that quotes it. *)
Definition rejected_netloc : string :=
  String "226"%char (String "132"%char (String "128"%char "")) ++ lone_surrogate.

Definition rejected_uri : string := "//" ++ rejected_netloc ++ "/?session_id=abc".

Definition rejecting_urljoin (base uri : string) : result string :=
  if String.eqb uri rejected_uri then
    Raise (Exn ValueError
             ("netloc '" ++ rejected_netloc
              ++ "' contains invalid characters under NFKC normalization"))
  else example_urljoin base uri.

(** The event [endpoint] whose data is [text], which [json.loads] decodes
    to [{"uri": uri}]. *)
Definition escaped_endpoint_event (text uri : string) : SSEEvent :=
  {| event := "endpoint";
     data := text;
     data_json := Return (JObj [("uri", JStr uri)]) |}.

(** A server whose endpoint event carries [rejected_uri], the two signs
    written as JSON escapes. *)
Definition rejected_uri_server : env :=
  {| requests_get := fun _ _ =>
       Return (sse_response 200
                 (SseNext (escaped_endpoint_event
                             ("{" ++ quoted "uri" ++ ": "
                              ++ quoted "//\u2100\ud800/?session_id=abc" ++ "}")
                             rejected_uri)
                          SseClosed));
     requests_post := fun _ _ _ _ => Raise (Exn ConnectionError "connection refused");
     urljoin := rejecting_urljoin |}.

(** A server whose endpoint event carries a session identifier that is a
    lone surrogate, written as a JSON escape. *)
Definition surrogate_sid_server : env :=
  {| requests_get := fun _ _ =>
       Return (sse_response 200
                 (SseNext (escaped_endpoint_event
                             ("{" ++ quoted "uri" ++ ": "
                              ++ quoted "/msg?session_id=\ud800" ++ "}")
                             ("/msg?session_id=" ++ lone_surrogate))
                          SseClosed));
     requests_post := fun _ _ _ _ => Raise (Exn ConnectionError "connection refused");
     urljoin := example_urljoin |}.

(** A client after a successful handshake for [/msg?session_id=abc123]. *)
Definition connected_client : MCPSSEClient :=
  {| base_url := BASE_URL;
     endpoint_id := ENDPOINT_ID;
     sse_url := BASE_URL ++ "/mcp/" ++ ENDPOINT_ID ++ "/sse";
     session_id := Some "abc123";
     message_url := Some "http://localhost:3000/msg?session_id=abc123" |}.

Definition connected : machine := {| self := connected_client; log := [] |}.

Definition fresh : machine :=
  {| self := MCPSSEClient_init BASE_URL ENDPOINT_ID; log := [] |}.


(* ================================================================== *)
(** ** Logs *)

Lemma posts_app (l1 l2 : list effect) : posts (l1 ++ l2) = posts l1 ++ posts l2.
Proof.
  induction l1 as [|e l1 IH]; simpl; [reflexivity|].
  destruct e; simpl; rewrite IH; reflexivity.
Qed.

Lemma posts_prints (d : list output) : posts (map Print d) = [].
Proof. induction d; simpl; auto. Qed.

Lemma http_requests_app (l1 l2 : list effect) :
  http_requests (l1 ++ l2) = http_requests l1 ++ http_requests l2.
Proof. apply filter_app. Qed.

Lemma tools_calls_app (l1 l2 : list effect) :
  tools_calls (l1 ++ l2) = tools_calls l1 ++ tools_calls l2.
Proof. unfold tools_calls. rewrite posts_app. apply filter_app. Qed.

Lemma logged_logged (m : machine) (a b : list effect) :
  logged (logged m a) b = logged m (a ++ b).
Proof. unfold logged; simpl. rewrite app_assoc. reflexivity. Qed.

Lemma posts_request_effects (url : string) (body : json) :
  posts (request_effects url body) = [(url, body)].
Proof. reflexivity. Qed.

(* ================================================================== *)
(** ** [send_mcp_request] *)

Lemma truthy_str_some (url : string) : url <> "" -> truthy_str (Some url) = true.
Proof.
  intros H. simpl. destruct (String.eqb_spec url ""); [contradiction|reflexivity].
Qed.

Lemma raise_for_status_error (r : Response) :
  (400 <= status_code r < 600)%Z ->
  raise_for_status r = Raise (Exn HTTPError "HTTP error status").
Proof.
  intros [H1 H2]. unfold raise_for_status.
  apply Z.leb_le in H1. apply Z.ltb_lt in H2. rewrite H1, H2. reflexivity.
Qed.

Lemma raise_for_status_pass (r : Response) :
  ~ (400 <= status_code r < 600)%Z ->
  raise_for_status r = Return tt.
Proof.
  intros H. unfold raise_for_status.
  destruct (400 <=? status_code r)%Z eqn:H1; [|reflexivity].
  destruct (status_code r <? 600)%Z eqn:H2; [|reflexivity].
  apply Z.leb_le in H1. apply Z.ltb_lt in H2. exfalso; apply H; lia.
Qed.

(** [print] appends to the log, or raises and leaves it alone. *)
Lemma print_run (o : output) (m : machine) :
  unprintable o = false -> print o m = (Return tt, logged m [Print o]).
Proof. intros H. unfold print. rewrite H. reflexivity. Qed.

Lemma print_fails (o : output) (m : machine) :
  unprintable o = true -> print o m = (Raise unicode_error, m).
Proof. intros H. unfold print. rewrite H. reflexivity. Qed.

Lemma bind_run {A B} (x : M A) (f : A -> M B) (m m1 : machine) (a : A) :
  x m = (Return a, m1) -> bind x f m = f a m1.
Proof. intros H. unfold bind. rewrite H. reflexivity. Qed.

Lemma bind_fails {A B} (x : M A) (f : A -> M B) (m m1 : machine) (e : exn) :
  x m = (Raise e, m1) -> bind x f m = (Raise e, m1).
Proof. intros H. unfold bind. rewrite H. reflexivity. Qed.

(** What lines 82-91 do with a response, case by case. *)
Lemma send_mcp_request_read_cases (r : Response) (m : machine) :
  send_mcp_request_read r m =
    match raise_for_status r with
    | Raise e => (Raise e, m)
    | Return _ =>
        if String.eqb (content r) "" then
          (Return (JObj [("status", JStr "success"); ("status_code", JInt (status_code r))]),
           logged m [Print (PStatusNoContent (status_code r))])
        else
          match json_result r with
          | Raise e => (Raise e, m)
          | Return v =>
              if holds_surrogate v then
                (Raise unicode_error, logged m [Print (PStatus (status_code r))])
              else
                (Return v,
                 logged m [Print (PStatus (status_code r)); Print (PResponseContent v)])
          end
    end.
Proof.
  unfold send_mcp_request_read, bind, lift.
  destruct (raise_for_status r); [|reflexivity].
  destruct (String.eqb (content r) ""); cbn [negb]; [reflexivity|].
  destruct (json_result r) as [v|e]; [|reflexivity].
  rewrite print_run by reflexivity.
  destruct (holds_surrogate v) eqn:Hv.
  - rewrite print_fails by exact Hv. reflexivity.
  - rewrite print_run by exact Hv. rewrite logged_logged. reflexivity.
Qed.

(** What the [except] clauses do with an exception, case by case. *)
Lemma send_mcp_request_except_cases (resp : option Response) (e : exn) (m : machine) :
  send_mcp_request_except resp e m =
    if is_RequestException e then (Return JNull, logged m [Print (PRequestError e)])
    else if is_JSONDecodeError e then
      match resp with
      | Some r =>
          if has_surrogate (text r) then
            (Raise unicode_error, logged m [Print (PJsonError e)])
          else
            (Return JNull, logged m [Print (PJsonError e); Print (PRawResponse (text r))])
      | None => (Raise (Exn UnboundLocalError "response"), logged m [Print (PJsonError e)])
      end
    else (Raise e, m).
Proof.
  unfold send_mcp_request_except, bind.
  destruct (is_RequestException e); [rewrite print_run by reflexivity; reflexivity|].
  destruct (is_JSONDecodeError e); [|reflexivity].
  rewrite print_run by reflexivity.
  destruct resp as [r|]; [|reflexivity].
  destruct (has_surrogate (text r)) eqn:Ht.
  - rewrite print_fails by exact Ht. reflexivity.
  - rewrite print_run by exact Ht. rewrite logged_logged. reflexivity.
Qed.

(** With the message URL unset (or empty) nothing is sent. *)
Lemma send_mcp_request_unset (E : env) (method : string) (params : json) (request_id : Z)
      (m : machine) :
  truthy_str (message_url (self m)) = false ->
  send_mcp_request E method params request_id m = (Return JNull, logged m [Print PNoEndpoint]).
Proof.
  intros H. unfold send_mcp_request, bind, get_self. rewrite H. reflexivity.
Qed.

(** A message URL that cannot be printed stops the request at line 73. *)
Lemma send_mcp_request_unprintable (E : env) (method : string) (params : json)
      (request_id : Z) (m : machine) (url : string) :
  message_url (self m) = Some url ->
  url <> "" ->
  has_surrogate url = true ->
  send_mcp_request E method params request_id m = (Raise unicode_error, m).
Proof.
  intros Hurl Hne Hsur.
  unfold send_mcp_request, bind, get_self. rewrite Hurl.
  rewrite (truthy_str_some url Hne). cbn [negb the_str].
  rewrite print_fails by exact Hsur. reflexivity.
Qed.

(** With the message URL set, the request is issued and the outcome of
    the POST decides the rest. *)
Lemma send_mcp_request_run (E : env) (method : string) (params : json) (request_id : Z)
      (m : machine) (url : string) :
  message_url (self m) = Some url ->
  url <> "" ->
  has_surrogate url = false ->
  send_mcp_request E method params request_id m =
    let body := envelope method (or_empty_dict params) request_id in
    let m1 := logged m (request_effects url body) in
    match requests_post E (List.length (posts (log m))) url body json_headers with
    | Raise e => send_mcp_request_except None e m1
    | Return response =>
        match send_mcp_request_read response m1 with
        | (Return v, m2) => (Return v, m2)
        | (Raise e, m2) => send_mcp_request_except (Some response) e m2
        end
    end.
Proof.
  intros Hurl Hne Hsur.
  unfold send_mcp_request, bind, get_self. rewrite Hurl.
  rewrite (truthy_str_some url Hne). cbn [negb the_str].
  rewrite print_run by exact Hsur. rewrite print_run by reflexivity.
  unfold attempt, http_post, bind, emit, lift. cbn [log logged self].
  rewrite !posts_app. cbn [posts app]. rewrite !app_nil_r.
  unfold envelope, json_headers, logged, request_effects. cbn [log self].
  rewrite <- !app_assoc. cbn [app].
  destruct (requests_post E _ _ _ _) as [response|e]; [|reflexivity].
  destruct (send_mcp_request_read response _) as [[v|e] m2]; reflexivity.
Qed.

(** Whatever the POST brings, the request is issued once and everything
    after it is printing. *)
Lemma send_mcp_request_log (E : env) (method : string) (params : json) (request_id : Z)
      (m : machine) (url : string) :
  message_url (self m) = Some url ->
  url <> "" ->
  has_surrogate url = false ->
  exists d,
    snd (send_mcp_request E method params request_id m) =
      logged m (request_effects url (envelope method (or_empty_dict params) request_id)
                ++ map Print d).
Proof.
  intros Hurl Hne Hsur.
  rewrite (send_mcp_request_run E method params request_id m url Hurl Hne Hsur).
  cbv zeta.
  set (body := envelope method (or_empty_dict params) request_id).
  set (m1 := logged m (request_effects url body)).
  assert (Hexc : forall resp e d0,
             exists d, snd (send_mcp_request_except resp e (logged m1 (map Print d0))) =
                       logged m (request_effects url body ++ map Print d)).
  { intros resp e d0. rewrite send_mcp_request_except_cases. unfold m1.
    destruct (is_RequestException e).
    - exists (d0 ++ [PRequestError e]). simpl. rewrite !logged_logged, map_app. reflexivity.
    - destruct (is_JSONDecodeError e).
      + destruct resp as [r|].
        * destruct (has_surrogate (text r)).
          -- exists (d0 ++ [PJsonError e]). simpl.
             rewrite !logged_logged, map_app. reflexivity.
          -- exists (d0 ++ [PJsonError e; PRawResponse (text r)]). simpl.
             rewrite !logged_logged, map_app. reflexivity.
        * exists (d0 ++ [PJsonError e]). simpl.
          rewrite !logged_logged, map_app. reflexivity.
      + exists d0. simpl. rewrite logged_logged. reflexivity. }
  assert (Hm1 : m1 = logged m1 (map Print [])).
  { unfold m1, logged; simpl. rewrite app_nil_r. reflexivity. }
  destruct (requests_post E _ _ _ _) as [r|e].
  - rewrite send_mcp_request_read_cases.
    destruct (raise_for_status r).
    + destruct (String.eqb (content r) "").
      * exists [PStatusNoContent (status_code r)]. simpl. unfold m1.
        rewrite logged_logged. reflexivity.
      * destruct (json_result r) as [v|e].
        -- destruct (holds_surrogate v).
           ++ change (logged m1 [Print (PStatus (status_code r))])
                with (logged m1 (map Print [PStatus (status_code r)])).
              apply Hexc.
           ++ exists [PStatus (status_code r); PResponseContent v]. simpl. unfold m1.
              rewrite logged_logged. reflexivity.
        -- rewrite Hm1. apply Hexc.
    + rewrite Hm1. apply Hexc.
  - rewrite Hm1. apply Hexc.
Qed.

Lemma or_empty_dict_dict (kv : list (string * json)) : or_empty_dict (JObj kv) = JObj kv.
Proof. destruct kv; reflexivity. Qed.

(** C3.  With the message URL unset, [send_mcp_request] -- for every
    method, params and id -- prints the error of line 63 and returns [None];
    that print is all it does: the log gains no HTTP request. *)
Theorem send_mcp_request_before_handshake
        (E : env) (method : string) (params : json) (request_id : Z) (m : machine) :
  message_url (self m) = None ->
  send_mcp_request E method params request_id m = (Return JNull, logged m [Print PNoEndpoint])
  /\ http_requests (log (snd (send_mcp_request E method params request_id m)))
     = http_requests (log m).
Proof.
  intros H.
  assert (Hrun := send_mcp_request_unset E method params request_id m).
  rewrite H in Hrun. specialize (Hrun eq_refl).
  split; [exact Hrun|].
  rewrite Hrun. simpl. rewrite http_requests_app. simpl. apply app_nil_r.
Qed.

Lemma send_mcp_request_before_handshake_witness :
  message_url (self fresh) = None
  /\ send_mcp_request three_tools_server "initialize" JNull 1 fresh
     = (Return JNull, logged fresh [Print PNoEndpoint]).
Proof.
  split; [reflexivity|].
  apply (send_mcp_request_before_handshake three_tools_server "initialize" JNull 1 fresh).
  reflexivity.
Defined.

(** C4.  With the message URL set, [send_mcp_request] posts to it exactly
    the object [{jsonrpc: "2.0", id: I, method: M, params: P}], with
    [params: {}] when no params are given -- and posts nothing else; it
    posts nothing at all, and raises [UnicodeEncodeError], when the message
    URL cannot be printed at line 73.  When the response has a 2xx status
    and an empty body, it returns
    [{"status": "success", "status_code": <status>}]. *)
Theorem send_mcp_request_envelope
        (E : env) (method : string) (P : option (list (string * json))) (request_id : Z)
        (m : machine) (url : string) :
  message_url (self m) = Some url ->
  url <> "" ->
  let params := match P with Some kv => JObj kv | None => JNull end in
  let body := envelope method (JObj (match P with Some kv => kv | None => [] end)) request_id in
  let run := send_mcp_request E method params request_id m in
  posts (log (snd run))
  = posts (log m) ++ (if has_surrogate url then [] else [(url, body)])
  /\ forall r,
       requests_post E (List.length (posts (log m))) url body json_headers = Return r ->
       (200 <= status_code r < 300)%Z ->
       content r = "" ->
       fst run = if has_surrogate url then Raise unicode_error
                 else Return (JObj [("status", JStr "success");
                                    ("status_code", JInt (status_code r))]).
Proof.
  intros Hurl Hne params body run.
  assert (Hbody : envelope method (or_empty_dict params) request_id = body).
  { unfold body, params. destruct P as [kv|]; [rewrite or_empty_dict_dict|]; reflexivity. }
  split.
  - destruct (has_surrogate url) eqn:Hsur.
    + unfold run.
      rewrite (send_mcp_request_unprintable E method params request_id m url Hurl Hne Hsur).
      cbn [snd]. rewrite app_nil_r. reflexivity.
    + destruct (send_mcp_request_log E method params request_id m url Hurl Hne Hsur)
        as [d Hd].
      unfold run. rewrite Hd, Hbody. unfold logged. cbn [log].
      rewrite !posts_app, posts_prints, posts_request_effects, app_nil_r. reflexivity.
  - intros r Hpost Hstatus Hcontent. unfold run.
    destruct (has_surrogate url) eqn:Hsur.
    { rewrite (send_mcp_request_unprintable E method params request_id m url Hurl Hne Hsur).
      reflexivity. }
    rewrite (send_mcp_request_run E method params request_id m url Hurl Hne Hsur).
    cbv zeta. rewrite Hbody, Hpost, send_mcp_request_read_cases.
    rewrite raise_for_status_pass by lia. rewrite Hcontent. reflexivity.
Qed.

Lemma send_mcp_request_envelope_witness :
  posts (log (snd (send_mcp_request (scripted 200 "/msg?session_id=abc123"
                                       [Return (empty_response 204)])
                     "tools/list" JNull 1 connected)))
  = [("http://localhost:3000/msg?session_id=abc123", envelope "tools/list" (JObj []) 1)].
Proof.
  apply (send_mcp_request_envelope
           (scripted 200 "/msg?session_id=abc123" [Return (empty_response 204)])
           "tools/list" None 1 connected "http://localhost:3000/msg?session_id=abc123").
  - reflexivity.
  - discriminate.
Defined.


(* ================================================================== *)
(** ** [str.split] around [session_id=] *)

Lemma split_from_length (sep : string) (hay : string) :
  forall skip cur, 1 <= List.length (split_from sep skip cur hay).
Proof.
  induction hay as [|c rest IH]; intros skip cur; cbn [split_from]; [simpl; lia|].
  destruct skip; [|apply IH].
  destruct (String.prefix sep (String c rest)); [simpl; lia|apply IH].
Qed.

Lemma contains_cons (needle : string) (c : ascii) (rest : string) :
  contains needle (String c rest) =
    if String.prefix needle (String c rest) then true else contains needle rest.
Proof. reflexivity. Qed.

Lemma split_from_two (sep hay : string) :
  sep <> "" ->
  contains sep hay = true ->
  forall cur, 2 <= List.length (split_from sep 0 cur hay).
Proof.
  intros Hsep. induction hay as [|c rest IH]; intros H cur.
  - destruct sep; [contradiction|discriminate].
  - rewrite contains_cons in H. cbn [split_from].
    destruct (String.prefix sep (String c rest)).
    + cbn [List.length]. pose proof (split_from_length sep rest (String.length sep - 1) ""). lia.
    + apply IH. exact H.
Qed.

Lemma split_from_skip (sep : string) (s rest cur : string) :
  split_from sep (String.length s) cur (s ++ rest) = split_from sep 0 cur rest.
Proof.
  induction s as [|c s IH]; [reflexivity|]. cbn. apply IH.
Qed.


Ltac straddle_step :=
  match goal with
  | |- match ascii_dec ?c ?a with left _ => String.prefix _ ?p | right _ => false end = false -> _ =>
      destruct (ascii_dec c a); [|reflexivity];
      destruct p; cbn [String.prefix String.append];
      try discriminate; try (intros _; reflexivity)
  end.

Lemma no_straddle (p rest : string) :
  String.prefix "session_id=" p = false ->
  p <> "" ->
  String.prefix "session_id=" (p ++ "session_id=" ++ rest) = false.
Proof.
  intros H Hne. destruct p as [|a p]; [contradiction|]. clear Hne.
  revert H. cbn [String.prefix String.append].
  repeat straddle_step.
Qed.

Lemma prefix_app (s rest : string) : String.prefix s (s ++ rest) = true.
Proof.
  induction s as [|a s IH]; [destruct rest; reflexivity|].
  cbn. destruct (ascii_dec a a); [exact IH|contradiction].
Qed.

Lemma append_empty (s : string) : (s ++ "")%string = s.
Proof. induction s; simpl; congruence. Qed.

Lemma append_cons (s : string) (c : ascii) (t : string) :
  ((s ++ String c "") ++ t)%string = (s ++ String c t)%string.
Proof. induction s; simpl; congruence. Qed.

Lemma split_from_before (pre : string) :
  contains "session_id=" pre = false ->
  forall cur rest,
    split_from "session_id=" 0 cur (pre ++ "session_id=" ++ rest)
    = (cur ++ pre)%string :: split_from "session_id=" 0 "" rest.
Proof.
  induction pre as [|c pre IH]; intros H cur rest.
  - change ("" ++ "session_id=" ++ rest)%string with (String "s" ("ession_id=" ++ rest)).
    cbn [split_from].
    change (String "s" ("ession_id=" ++ rest)) with ("session_id=" ++ rest)%string at 1.
    rewrite prefix_app.
    change (String.length "session_id=" - 1) with (String.length "ession_id=").
    rewrite split_from_skip, append_empty. reflexivity.
  - rewrite contains_cons in H.
    destruct (String.prefix "session_id=" (String c pre)) eqn:Hp; [discriminate|].
    change ((String c pre ++ "session_id=" ++ rest)%string)
      with (String c (pre ++ "session_id=" ++ rest)).
    cbn [split_from].
    change (String c (pre ++ "session_id=" ++ rest))
      with ((String c pre ++ "session_id=" ++ rest)%string).
    rewrite (no_straddle (String c pre) rest Hp) by discriminate.
    rewrite IH by exact H.
    rewrite append_cons. reflexivity.
Qed.

Lemma split_from_none (hay : string) :
  contains "session_id=" hay = false ->
  forall cur, split_from "session_id=" 0 cur hay = [(cur ++ hay)%string].
Proof.
  induction hay as [|c hay IH]; intros H cur.
  - cbn. rewrite append_empty. reflexivity.
  - rewrite contains_cons in H.
    destruct (String.prefix "session_id=" (String c hay)) eqn:Hp; [discriminate|].
    cbn [split_from]. rewrite Hp, IH by exact H.
    rewrite append_cons. reflexivity.
Qed.

(* ================================================================== *)
(** ** [connect_sse] *)

Lemma split_second (uri : string) :
  contains "session_id=" uri = true ->
  py_index (split uri "session_id=") 1 = Return (nth 1 (split uri "session_id=") "").
Proof.
  intros H. unfold py_index, split.
  pose proof (split_from_two "session_id=" uri ltac:(discriminate) H "") as Hlen.
  destruct (split_from "session_id=" 0 "" uri) as [|a [|b l]]; simpl in Hlen; try lia.
  reflexivity.
Qed.


(** The handler of line 54: it prints the exception and returns [False],
    unless the message of the exception cannot be printed. *)
Lemma connect_sse_handler (e : exn) (m : machine) :
  (print (PSseError e) ;; ret false)%py m =
    if has_surrogate (message e) then (Raise unicode_error, m)
    else (Return false, logged m [Print (PSseError e)]).
Proof.
  unfold bind. destruct (has_surrogate (message e)) eqn:H.
  - rewrite print_fails by exact H. reflexivity.
  - rewrite print_run by exact H. reflexivity.
Qed.

Lemma connect_sse_event_spec (E : env) (ev : SSEEvent) (m : machine) :
  let seen := [Print (PSseEvent (event ev) (data ev))] in
  match endpoint_uri ev with
  | Some uri =>
      let sid := nth 1 (split uri "session_id=") "" in
      connect_sse_event E ev m =
        match urljoin E (base_url (self m)) uri with
        | Return url =>
            let written := with_session (self m) (Some sid) (Some url) in
            if has_surrogate sid then
              (Raise unicode_error, {| self := written; log := log m ++ seen |})
            else if has_surrogate url then
              (Raise unicode_error,
               {| self := written; log := log m ++ seen ++ [Print (PSessionId sid)] |})
            else
              (Return true,
               {| self := written;
                  log := log m ++ seen ++ [Print (PSessionId sid); Print (PMessageUrl url)] |})
        | Raise e =>
            (Raise e,
             {| self := with_session (self m) (Some sid) (message_url (self m));
                log := log m ++ seen |})
        end
  | None =>
      exists r, connect_sse_event E ev m = (r, logged m seen) /\ r <> Return true
  end.
Proof.
  intros seen.
  unfold endpoint_uri, connect_sse_event.
  unfold bind at 1. rewrite print_run by reflexivity.
  unfold bind, lift.
  destruct (String.eqb (event ev) "endpoint");
    [|exists (Return false); split; [reflexivity|discriminate]].
  destruct (data_json ev) as [d|e];
    [|exists (Raise e); split; [reflexivity|discriminate]].
  destruct d as [| | | | |items|fields]; cbn [py_get];
    try (eexists; split; [reflexivity|discriminate]).
  destruct (lookup "uri" fields) as [v|]; cbn [truthy];
    [|exists (Return false); split; [reflexivity|discriminate]].
  destruct (truthy v) eqn:Htruthy.
  2:{ destruct v; try (exists (Return false); split; [reflexivity|discriminate]).
      cbn [truthy] in Htruthy.
      destruct (contains "session_id=" s) eqn:Hc;
        [|exists (Return false); split; [reflexivity|discriminate]].
      destruct s; [discriminate Hc|discriminate Htruthy]. }
  destruct v as [|b|z|f|uri|items|fields']; cbn [py_in];
    try (eexists; split; [reflexivity|discriminate]).
  - destruct (contains "session_id=" uri) eqn:Hc;
      [|exists (Return false); split; [reflexivity|discriminate]].
    cbn [py_split]. rewrite (split_second uri Hc).
    unfold set_session_id, get_self, set_message_url, as_str, with_session.
    cbn [self log base_url endpoint_id sse_url session_id message_url logged].
    destruct (urljoin E (base_url (self m)) uri) as [url|e]; [|reflexivity].
    set (sid := nth 1 (split uri "session_id=") "").
    destruct (has_surrogate sid) eqn:Hsid.
    + rewrite print_fails by exact Hsid. reflexivity.
    + rewrite print_run by exact Hsid.
      destruct (has_surrogate url) eqn:Hurl.
      * rewrite print_fails by exact Hurl. unfold logged. cbn [self log].
        rewrite <- !app_assoc. reflexivity.
      * rewrite print_run by exact Hurl. unfold logged, ret. cbn [self log].
        rewrite <- !app_assoc. reflexivity.
  - destruct (existsb (eq_str "session_id=") items);
      eexists; (split; [reflexivity|discriminate]).
  - destruct (has_key "session_id=" fields');
      eexists; (split; [reflexivity|discriminate]).
Qed.

(** [connect_sse] is the GET, the first event, and the handler. *)
Lemma connect_sse_unfold (E : env) (m : machine) :
  connect_sse E m =
    let m0 := logged m [Print (PConnecting (sse_url (self m)));
                        HttpGet (sse_url (self m)) sse_headers] in
    match requests_get E (sse_url (self m)) sse_headers with
    | Raise e => (print (PSseError e) ;; ret false)%py m0
    | Return resp =>
        match raise_for_status resp with
        | Raise e => (print (PSseError e) ;; ret false)%py m0
        | Return _ =>
            match events resp with
            | SseClosed => (Return false, m0)
            | SseFails e => (print (PSseError e) ;; ret false)%py m0
            | SseNext ev _ =>
                match connect_sse_event E ev m0 with
                | (Return b, m1) => (Return b, m1)
                | (Raise e, m1) => (print (PSseError e) ;; ret false)%py m1
                end
            end
        end
    end.
Proof.
  unfold connect_sse.
  unfold bind at 1. unfold get_self at 1. cbv beta iota.
  unfold bind at 1. rewrite print_run by reflexivity.
  unfold bind at 1. unfold attempt, http_get.
  unfold bind at 1. unfold bind at 1. unfold emit, lift. cbn [self log logged].
  fold sse_headers.
  assert (Hm0 : {| self := self m;
                   log := (log m ++ [Print (PConnecting (sse_url (self m)))])
                          ++ [HttpGet (sse_url (self m)) sse_headers] |}
                = logged m [Print (PConnecting (sse_url (self m)));
                            HttpGet (sse_url (self m)) sse_headers]).
  { unfold logged. rewrite <- app_assoc. reflexivity. }
  rewrite Hm0. cbv zeta.
  destruct (requests_get E (sse_url (self m)) sse_headers) as [resp|e]; [|reflexivity].
  unfold bind at 1.
  destruct (raise_for_status resp) as [[]|e]; [|reflexivity].
  destruct (events resp) as [|e|ev rest]; try reflexivity.
  destruct (connect_sse_event E ev _) as [[b|e] m1]; reflexivity.
Qed.

(** The handshake, outcome by outcome. *)
Lemma connect_sse_spec (E : env) (m : machine) :
  exists d,
    http_requests d = [HttpGet (sse_url (self m)) sse_headers]
    /\ posts d = []
    /\ match handshake E (self m) with
       | Some (sid, Return url) =>
           connect_sse E m =
             (Return (negb (has_surrogate sid || has_surrogate url)),
              {| self := with_session (self m) (Some sid) (Some url); log := log m ++ d |})
       | Some (sid, Raise e) =>
           connect_sse E m =
             ((if has_surrogate (message e) then Raise unicode_error else Return false),
              {| self := with_session (self m) (Some sid) (message_url (self m));
                 log := log m ++ d |})
       | None =>
           exists r,
             connect_sse E m = (r, logged m d)
             /\ (r = Return false \/ r = Raise unicode_error)
       end.
Proof.
  rewrite connect_sse_unfold. cbv zeta. unfold handshake.
  set (start := [Print (PConnecting (sse_url (self m)));
                 HttpGet (sse_url (self m)) sse_headers]).
  assert (Hfail : forall e,
             exists d,
               http_requests d = [HttpGet (sse_url (self m)) sse_headers]
               /\ posts d = []
               /\ exists r,
                    (print (PSseError e) ;; ret false)%py (logged m start) = (r, logged m d)
                    /\ (r = Return false \/ r = Raise unicode_error)).
  { intros e. rewrite connect_sse_handler. destruct (has_surrogate (message e)).
    - exists start. repeat split. eexists. split; [reflexivity|auto].
    - exists (start ++ [Print (PSseError e)]). repeat split.
      eexists. rewrite logged_logged. split; [reflexivity|auto]. }
  destruct (requests_get E (sse_url (self m)) sse_headers) as [resp|e]; [|apply Hfail].
  destruct (raise_for_status resp) as [[]|e]; [|apply Hfail].
  destruct (events resp) as [|e|ev rest]; [|apply Hfail|].
  - exists start. repeat split. eexists. split; [reflexivity|auto].
  - pose proof (connect_sse_event_spec E ev (logged m start)) as Hev. cbv zeta in Hev.
    cbn [self log logged] in Hev.
    set (seen := Print (PSseEvent (event ev) (data ev))) in *.
    assert (Hlog : forall (c : MCPSSEClient) (l : list effect),
               {| self := c; log := (log m ++ start) ++ l |}
               = {| self := c; log := log m ++ start ++ l |}).
    { intros c l. rewrite <- app_assoc. reflexivity. }
    destruct (endpoint_uri ev) as [uri|].
    + rewrite Hev. destruct (urljoin E (base_url (self m)) uri) as [url|e].
      * set (sid := nth 1 (split uri "session_id=") "").
        destruct (has_surrogate sid).
        -- rewrite connect_sse_handler.
           change (has_surrogate (message unicode_error)) with false. cbv iota.
           exists (start ++ [seen; Print (PSseError unicode_error)]).
           split; [reflexivity|]. split; [reflexivity|].
           unfold logged. cbn [self log negb orb]. rewrite <- ?app_assoc. reflexivity.
        -- destruct (has_surrogate url).
           ++ rewrite connect_sse_handler.
              change (has_surrogate (message unicode_error)) with false. cbv iota.
              exists (start ++ [seen; Print (PSessionId sid); Print (PSseError unicode_error)]).
              split; [reflexivity|]. split; [reflexivity|].
              unfold logged. cbn [self log negb orb].
              rewrite <- ?app_assoc. reflexivity.
           ++ exists (start ++ [seen; Print (PSessionId sid); Print (PMessageUrl url)]).
              split; [reflexivity|]. split; [reflexivity|].
              cbn [negb orb]. rewrite <- ?app_assoc. reflexivity.
      * rewrite connect_sse_handler. destruct (has_surrogate (message e)).
        -- exists (start ++ [seen]).
           split; [reflexivity|]. split; [reflexivity|]. rewrite <- ?app_assoc. reflexivity.
        -- exists (start ++ [seen; Print (PSseError e)]).
           split; [reflexivity|]. split; [reflexivity|].
           unfold logged. cbn [self log]. rewrite <- ?app_assoc. reflexivity.
    + destruct Hev as [r [Hev Hr]]. rewrite Hev.
      destruct r as [[|]|e]; [contradiction| |].
      * exists (start ++ [seen]).
        split; [reflexivity|]. split; [reflexivity|].
        eexists. split; [|left; reflexivity].
        unfold logged. cbn [self log]. rewrite <- ?app_assoc. reflexivity.
      * rewrite connect_sse_handler. destruct (has_surrogate (message e)).
        -- exists (start ++ [seen]).
           split; [reflexivity|]. split; [reflexivity|].
           eexists. split; [|right; reflexivity].
           unfold logged. cbn [self log]. rewrite <- ?app_assoc. reflexivity.
        -- exists (start ++ [seen; Print (PSseError e)]).
           split; [reflexivity|]. split; [reflexivity|].
           eexists. split; [|left; reflexivity].
           unfold logged. cbn [self log]. rewrite <- ?app_assoc. reflexivity.
Qed.


Lemma split_session_id (pre X tail : string) :
  contains "session_id=" pre = false ->
  contains "session_id=" X = false ->
  tail = "" \/ (exists more, tail = ("session_id=" ++ more)%string) ->
  nth 1 (split (pre ++ "session_id=" ++ X ++ tail) "session_id=") "" = X.
Proof.
  intros Hpre HX Htail. unfold split.
  rewrite (split_from_before pre Hpre).
  destruct Htail as [->|[more ->]].
  - rewrite append_empty, (split_from_none X HX). reflexivity.
  - rewrite (split_from_before X HX). reflexivity.
Qed.







(** A session identifier that holds a lone surrogate: both fields are
    written, the print of line 47 fails, and the handshake returns [False]. *)
Example connect_sse_unprintable_session_id :
  connect_sse surrogate_sid_server fresh
  = (Return false,
     {| self := with_session (self fresh) (Some lone_surrogate)
                  (Some ("http://localhost:3000/msg?session_id=" ++ lone_surrogate)%string);
        log := [Print (PConnecting (sse_url (self fresh)));
                HttpGet (sse_url (self fresh)) sse_headers;
                Print (PSseEvent "endpoint"
                         ("{" ++ quoted "uri" ++ ": "
                          ++ quoted "/msg?session_id=\ud800" ++ "}"));
                Print (PSseError unicode_error)] |}).
Proof. reflexivity. Qed.

(** A uri that [urljoin] rejects with a message quoting a lone surrogate:
    the print of line 55 fails inside the handler, and [connect_sse] raises. *)
Example connect_sse_unprintable_exception :
  fst (connect_sse rejected_uri_server fresh) = Raise unicode_error
  /\ session_id (self (snd (connect_sse rejected_uri_server fresh))) = Some "abc"
  /\ message_url (self (snd (connect_sse rejected_uri_server fresh))) = None.
Proof. repeat split. Qed.

(* ================================================================== *)
(** ** The client object is written by the handshake only *)

Create HintDb frame.

Section Frame.
Variable E : env.

Lemma keeps_ret {A} (a : A) : keeps_self (ret a).
Proof. intros m. reflexivity. Qed.

Lemma keeps_raise {A} (e : exn) : keeps_self (@raise A e).
Proof. intros m. reflexivity. Qed.

Lemma keeps_lift {A} (r : result A) : keeps_self (lift r).
Proof. intros m. reflexivity. Qed.

Lemma keeps_emit (e : effect) : keeps_self (emit e).
Proof. intros m. reflexivity. Qed.

Lemma keeps_print (o : output) : keeps_self (print o).
Proof. intros m. unfold print. destruct (unprintable o); reflexivity. Qed.

Lemma keeps_get_self : keeps_self get_self.
Proof. intros m. reflexivity. Qed.

Lemma keeps_bind {A B} (x : M A) (f : A -> M B) :
  keeps_self x -> (forall a, keeps_self (f a)) -> keeps_self (bind x f).
Proof.
  intros Hx Hf m. unfold bind. specialize (Hx m).
  destruct (x m) as [[a|e] m1]; cbn [snd] in *.
  - rewrite Hf. exact Hx.
  - exact Hx.
Qed.

Lemma keeps_attempt {A} (x : M A) : keeps_self x -> keeps_self (attempt x).
Proof.
  intros Hx m. unfold attempt. specialize (Hx m).
  destruct (x m) as [r m1]. exact Hx.
Qed.

Lemma keeps_http_post (url : string) (body : json) (hdrs : headers) :
  keeps_self (http_post E url body hdrs).
Proof.
  intros m. unfold http_post, bind, emit, lift.
  match goal with
  | |- context [requests_post E ?n ?u ?b ?h] => destruct (requests_post E n u b h)
  end; reflexivity.
Qed.

Lemma keeps_if {A} (b : bool) (x y : M A) :
  keeps_self x -> keeps_self y -> keeps_self (if b then x else y).
Proof. destruct b; auto. Qed.

#[local] Hint Resolve keeps_ret keeps_raise keeps_lift keeps_emit keeps_print keeps_get_self
     keeps_attempt keeps_http_post keeps_if : frame.

Ltac frame :=
  repeat first
    [ progress auto with frame
    | apply keeps_bind; [|intros ?]
    | match goal with
      | |- keeps_self (match ?x with _ => _ end) => destruct x
      end ].

Lemma keeps_send_mcp_request_except (resp : option Response) (e : exn) :
  keeps_self (send_mcp_request_except resp e).
Proof. unfold send_mcp_request_except. frame. Qed.

Lemma keeps_send_mcp_request_read (resp : Response) :
  keeps_self (send_mcp_request_read resp).
Proof. unfold send_mcp_request_read. frame. Qed.

#[local] Hint Resolve keeps_send_mcp_request_except keeps_send_mcp_request_read : frame.

Lemma keeps_send_mcp_request (method : string) (params : json) (request_id : Z) :
  keeps_self (send_mcp_request E method params request_id).
Proof. unfold send_mcp_request. frame. Qed.

#[local] Hint Resolve keeps_send_mcp_request : frame.

Lemma keeps_test_initialize : keeps_self (test_initialize E).
Proof. unfold test_initialize. frame. Qed.

Lemma keeps_test_list_tools : keeps_self (test_list_tools E).
Proof. unfold test_list_tools. frame. Qed.

Lemma keeps_test_call_tool (tool_name arguments : json) :
  keeps_self (test_call_tool E tool_name arguments).
Proof. unfold test_call_tool. frame. Qed.

Lemma keeps_test_call_tool_with_agent_id (tool_name : json) (agent : string) :
  keeps_self (test_call_tool_with_agent_id E tool_name agent).
Proof. unfold test_call_tool_with_agent_id. frame. Qed.

#[local] Hint Resolve keeps_test_initialize keeps_test_list_tools keeps_test_call_tool
     keeps_test_call_tool_with_agent_id : frame.

Lemma keeps_call_tools (tools : json) : keeps_self (call_tools E tools).
Proof. unfold call_tools. frame. Qed.

#[local] Hint Resolve keeps_call_tools : frame.

Lemma keeps_after_list_tools (tools_result : json) :
  keeps_self (after_list_tools E tools_result).
Proof. unfold after_list_tools. frame. Qed.

#[local] Hint Resolve keeps_after_list_tools : frame.

Lemma keeps_after_connect : keeps_self (after_connect E).
Proof. unfold after_connect, step_initialize, step_list_tools. frame. Qed.

End Frame.

Lemma connect_sse_event_self (E : env) (ev : SSEEvent) (c : MCPSSEClient)
    (l1 l2 : list effect) :
  fst (connect_sse_event E ev {| self := c; log := l1 |})
  = fst (connect_sse_event E ev {| self := c; log := l2 |})
  /\ self (snd (connect_sse_event E ev {| self := c; log := l1 |}))
     = self (snd (connect_sse_event E ev {| self := c; log := l2 |})).
Proof.
  unfold connect_sse_event, bind, print, emit, lift, ret, raise,
    set_session_id, set_message_url, get_self.
  cbn [unprintable self log logged base_url].
  repeat (match goal with
          | |- context [match ?x with _ => _ end] =>
              lazymatch type of x with
              | (_ * _)%type => fail
              | _ => destruct x
              end
          end; cbn [fst snd self log logged base_url]);
    cbn [fst snd self log logged]; auto.
Qed.

Lemma connect_sse_self (E : env) (m1 m2 : machine) :
  self m1 = self m2 ->
  fst (connect_sse E m1) = fst (connect_sse E m2)
  /\ self (snd (connect_sse E m1)) = self (snd (connect_sse E m2)).
Proof.
  destruct m1 as [c l1], m2 as [c2 l2]. cbn [self]. intros <-.
  rewrite !connect_sse_unfold. cbv zeta. unfold logged. cbn [self log].
  assert (Hhandler : forall e c0 k1 k2,
             fst ((print (PSseError e) ;; ret false)%py {| self := c0; log := k1 |})
             = fst ((print (PSseError e) ;; ret false)%py {| self := c0; log := k2 |})
             /\ self (snd ((print (PSseError e) ;; ret false)%py {| self := c0; log := k1 |}))
                = self (snd ((print (PSseError e) ;; ret false)%py {| self := c0; log := k2 |}))).
  { intros e c0 k1 k2. rewrite !connect_sse_handler.
    destruct (has_surrogate (message e)); cbn [fst snd self logged log]; auto. }
  destruct (requests_get E (sse_url c) sse_headers) as [resp|e]; [|apply Hhandler].
  destruct (raise_for_status resp) as [[]|e]; [|apply Hhandler].
  destruct (events resp) as [|e|ev rest]; [cbn; auto|apply Hhandler|].
  pose proof (connect_sse_event_self E ev c
                (l1 ++ [Print (PConnecting (sse_url c)); HttpGet (sse_url c) sse_headers])
                (l2 ++ [Print (PConnecting (sse_url c)); HttpGet (sse_url c) sse_headers]))
    as [Hfst Hself].
  destruct (connect_sse_event E ev
              {| self := c;
                 log := l1 ++ [Print (PConnecting (sse_url c));
                               HttpGet (sse_url c) sse_headers] |}) as [r1 [c1 k1]].
  destruct (connect_sse_event E ev
              {| self := c;
                 log := l2 ++ [Print (PConnecting (sse_url c));
                               HttpGet (sse_url c) sse_headers] |}) as [r2 [c2 k2]].
  cbn [fst snd self] in Hfst, Hself. subst r2 c2.
  destruct r1 as [b|e]; [cbn [fst snd self]; auto|apply Hhandler].
Qed.

Lemma main_self (E : env) : self (snd (main E)) = self (snd (connect_sse E fresh)).
Proof.
  unfold main, main_script, bind, print, emit. cbn [unprintable self log app].
  match goal with |- context [connect_sse E ?mm] =>
    destruct (connect_sse_self E mm fresh eq_refl) as [_ Hself];
    destruct (connect_sse E mm) as [[b|e] m1] eqn:Hrun end;
    cbn [snd] in Hself; rewrite <- Hself; [|reflexivity].
  destruct b; cbn [negb].
  - apply keeps_after_connect.
  - reflexivity.
Qed.

(** C8, as the code has it.  [connect_sse] leaves the base URL, the endpoint
    id and the SSE URL alone; it writes the session identifier only when the
    first event offers a uri containing [session_id=] (line 45), and the
    message URL only when, moreover, the resolution of that uri returns
    (line 46): in a handshake that succeeds, or in one that fails after
    these lines.  [send_mcp_request] and the [test_*] methods write no field
    at all, whether they return or raise, so that, in [main], the client is
    at the end as the handshake left it. *)
Theorem client_written_by_handshake_only (E : env) (m : machine) :
  let m' := snd (connect_sse E m) in
  base_url (self m') = base_url (self m)
  /\ endpoint_id (self m') = endpoint_id (self m)
  /\ sse_url (self m') = sse_url (self m)
  /\ (message_url (self m') = message_url (self m)
      \/ exists sid url, handshake E (self m) = Some (sid, Return url)
                         /\ message_url (self m') = Some url)
  /\ (session_id (self m') = session_id (self m)
      \/ exists sid r, handshake E (self m) = Some (sid, r) /\ session_id (self m') = Some sid)
  /\ (fst (connect_sse E m) = Return true ->
      exists sid url, handshake E (self m) = Some (sid, Return url)
                      /\ session_id (self m') = Some sid
                      /\ message_url (self m') = Some url)
  /\ (forall method params request_id,
         keeps_self (send_mcp_request E method params request_id))
  /\ keeps_self (test_initialize E)
  /\ keeps_self (test_list_tools E)
  /\ (forall tool_name arguments, keeps_self (test_call_tool E tool_name arguments))
  /\ (forall tool_name agent, keeps_self (test_call_tool_with_agent_id E tool_name agent))
  /\ self (snd (main E)) = self (snd (connect_sse E fresh)).
Proof.
  cbv zeta.
  destruct (connect_sse_spec E m) as [d [_ [_ Hrun]]].
  assert (Hkeep :
            (forall method params request_id,
                keeps_self (send_mcp_request E method params request_id))
            /\ keeps_self (test_initialize E)
            /\ keeps_self (test_list_tools E)
            /\ (forall tool_name arguments, keeps_self (test_call_tool E tool_name arguments))
            /\ (forall tool_name agent,
                   keeps_self (test_call_tool_with_agent_id E tool_name agent))
            /\ self (snd (main E)) = self (snd (connect_sse E fresh))).
  { repeat split.
    - apply keeps_send_mcp_request.
    - apply keeps_test_initialize.
    - apply keeps_test_list_tools.
    - apply keeps_test_call_tool.
    - apply keeps_test_call_tool_with_agent_id.
    - apply main_self. }
  destruct (handshake E (self m)) as [[sid [url|e]]|] eqn:Hh.
  - rewrite Hrun.
    cbn [fst snd self logged with_session base_url endpoint_id sse_url session_id message_url].
    repeat (split; [reflexivity|]).
    split; [right; exists sid, url; auto|].
    split; [right; exists sid, (Return url); auto|].
    split; [intros _; exists sid, url; auto|]. exact Hkeep.
  - rewrite Hrun.
    cbn [fst snd self logged with_session base_url endpoint_id sse_url session_id message_url].
    repeat (split; [reflexivity|]). split; [left; reflexivity|].
    split; [right; exists sid, (Raise e); auto|].
    split; [destruct (has_surrogate (message e)); discriminate|]. exact Hkeep.
  - destruct Hrun as [r [Hrun Hr]]. rewrite Hrun.
    cbn [fst snd self logged with_session base_url endpoint_id sse_url session_id message_url].
    repeat (split; [reflexivity|]). split; [left; reflexivity|].
    split; [left; reflexivity|].
    split; [destruct Hr as [-> | ->]; discriminate|]. exact Hkeep.
Qed.

(** The uri [//[?session_id=abc] contains [session_id=], and [urljoin]
    rejects it: the handshake fails, and the session identifier is set. *)
Lemma failed_handshake_writes_session_id :
  fst (connect_sse (scripted 200 "//[?session_id=abc" []) fresh) = Return false
  /\ session_id (self fresh) = None
  /\ session_id (self (snd (connect_sse (scripted 200 "//[?session_id=abc" []) fresh)))
     = Some "abc"
  /\ message_url (self (snd (connect_sse (scripted 200 "//[?session_id=abc" []) fresh)))
     = None.
Proof. repeat split. Qed.

(** A session identifier that cannot be printed: lines 45 and 46 have
    written both fields when the print of line 47 raises, and the handshake
    returns [False] with the message URL set. *)
Lemma failed_handshake_writes_message_url :
  fst (connect_sse surrogate_sid_server fresh) = Return false
  /\ message_url (self fresh) = None
  /\ message_url (self (snd (connect_sse surrogate_sid_server fresh)))
     = Some ("http://localhost:3000/msg?session_id=" ++ lone_surrogate)%string
  /\ session_id (self (snd (connect_sse surrogate_sid_server fresh))) = Some lone_surrogate.
Proof. repeat split. Qed.

(* ================================================================== *)
(** ** Failures of the POST, on examples *)


(** The same failure with a raw text that cannot be printed (the body
    [\ud800] under the charset [unicode_escape]): the print of line 98
    raises out of the [except] clause. *)
Example send_mcp_request_unprintable_text :
  let response :=
    {| status_code := 200;
       content := "\ud800";
       text := lone_surrogate;
       json_result := Raise (Exn JSONDecodeError "Expecting value");
       events := SseClosed |} in
  send_mcp_request (scripted 200 "/msg?session_id=abc123" [Return response])
    "tools/list" JNull 1 connected
  = (Raise unicode_error,
     logged connected
       (request_effects "http://localhost:3000/msg?session_id=abc123"
          (envelope "tools/list" (JObj []) 1)
        ++ [Print (PJsonError (Exn JSONDecodeError "Expecting value"))])).
Proof. reflexivity. Qed.



(* ================================================================== *)
(** ** Running the steps of [main] *)

Lemma report_run (b : bool) (yes no : output) (m : machine) :
  unprintable yes = false ->
  unprintable no = false ->
  (if b then print yes else print no) m = (Return tt, logged m [Print (if b then yes else no)]).
Proof. intros Hyes Hno. destruct b; apply print_run; assumption. Qed.

(** When the POST fails in no other way than requests documents, and
    what it brings can be printed, [send_mcp_request] returns. *)
Lemma send_mcp_request_returns (E : env) (method : string) (params : json) (request_id : Z)
      (m : machine) (url : string) :
  message_url (self m) = Some url ->
  url <> "" ->
  has_surrogate url = false ->
  let body := envelope method (or_empty_dict params) request_id in
  documented (requests_post E (List.length (posts (log m))) url body json_headers) ->
  printable (requests_post E (List.length (posts (log m))) url body json_headers) ->
  exists d,
    send_mcp_request E method params request_id m =
      (Return (returned (requests_post E (List.length (posts (log m))) url body json_headers)),
       logged m (request_effects url body ++ map Print d)).
Proof.
  intros Hurl Hne Hsur body HE [HP HT].
  rewrite (send_mcp_request_run E method params request_id m url Hurl Hne Hsur). cbv zeta.
  fold body.
  unfold returned in *.
  destruct (requests_post E _ _ _ _) as [r|e]; cbn [documented] in HE.
  - rewrite send_mcp_request_read_cases.
    destruct (raise_for_status r) as [[]|e] eqn:Hstatus.
    + destruct (String.eqb (content r) "").
      * exists [PStatusNoContent (status_code r)].
        rewrite logged_logged. reflexivity.
      * destruct (json_result r) as [v|e].
        -- rewrite HP. exists [PStatus (status_code r); PResponseContent v].
           rewrite logged_logged. reflexivity.
        -- rewrite send_mcp_request_except_cases, HE, HT.
           destruct (is_RequestException e).
           ++ exists [PRequestError e]. rewrite logged_logged. reflexivity.
           ++ exists [PJsonError e; PRawResponse (text r)].
              rewrite logged_logged. reflexivity.
    + unfold raise_for_status in Hstatus.
      destruct ((400 <=? status_code r)%Z && (status_code r <? 600)%Z); [|discriminate].
      injection Hstatus as <-.
      rewrite send_mcp_request_except_cases. cbn [is_RequestException class_of].
      exists [PRequestError (Exn HTTPError "HTTP error status")].
      rewrite logged_logged. reflexivity.
  - rewrite send_mcp_request_except_cases, HE.
    exists [PRequestError e]. rewrite logged_logged. reflexivity.
Qed.

Lemma posts_issue (url : string) (body : json) (before : list effect) (d : list output) :
  posts (before ++ request_effects url body ++ map Print d) = posts before ++ [(url, body)].
Proof.
  rewrite !posts_app, posts_request_effects, posts_prints, app_nil_r. reflexivity.
Qed.

Lemma test_call_tool_run (E : env) (tool_name arguments : json) (m : machine) (url : string) :
  requests_contract E ->
  replies_printable E ->
  message_url (self m) = Some url ->
  url <> "" ->
  has_surrogate url = false ->
  shown_surrogate tool_name = false ->
  exists v out,
    test_call_tool E tool_name arguments m = (Return v, logged m out)
    /\ posts out = [(url, tools_call tool_name (or_empty_dict arguments))].
Proof.
  intros HE HP Hurl Hne Hsur Hname. unfold test_call_tool.
  rewrite (bind_run _ _ m _ tt (print_run (PTestCallTool tool_name) m Hname)).
  destruct (send_mcp_request_returns E "tools/call"
              (JObj [("name", tool_name); ("arguments", or_empty_dict arguments)]) 1
              (logged m [Print (PTestCallTool tool_name)]) url Hurl Hne Hsur
              (HE _ _ _ _) (HP _ _ _ _))
    as [d Hrun].
  cbv zeta in Hrun.
  rewrite Hrun, logged_logged. eexists. eexists. split; [reflexivity|].
  change (Print (PTestCallTool tool_name) :: ?l) with ([Print (PTestCallTool tool_name)] ++ l).
  rewrite (posts_issue url _ [Print (PTestCallTool tool_name)] d). reflexivity.
Qed.

Lemma test_call_tool_with_agent_id_run (E : env) (tool_name : json) (agent : string)
      (m : machine) (url : string) :
  requests_contract E ->
  replies_printable E ->
  message_url (self m) = Some url ->
  url <> "" ->
  has_surrogate url = false ->
  shown_surrogate tool_name = false ->
  has_surrogate agent = false ->
  exists v out,
    test_call_tool_with_agent_id E tool_name agent m = (Return v, logged m out)
    /\ posts out = [(url, tools_call tool_name (JObj [("agentId", JStr agent)]))].
Proof.
  intros HE HP Hurl Hne Hsur Hname Hagent. unfold test_call_tool_with_agent_id.
  assert (Hheading : unprintable (PTestCallToolAgent tool_name agent) = false).
  { cbn [unprintable]. rewrite Hname, Hagent. reflexivity. }
  rewrite (bind_run _ _ m _ tt (print_run (PTestCallToolAgent tool_name agent) m Hheading)).
  destruct (send_mcp_request_returns E "tools/call"
              (JObj [("name", tool_name); ("arguments", JObj [("agentId", JStr agent)])]) 1
              (logged m [Print (PTestCallToolAgent tool_name agent)]) url Hurl Hne Hsur
              (HE _ _ _ _) (HP _ _ _ _))
    as [d Hrun].
  cbv zeta in Hrun.
  rewrite Hrun, logged_logged. eexists. eexists. split; [reflexivity|].
  change (Print (PTestCallToolAgent tool_name agent) :: ?l)
    with ([Print (PTestCallToolAgent tool_name agent)] ++ l).
  rewrite (posts_issue url _ [Print (PTestCallToolAgent tool_name agent)] d). reflexivity.
Qed.

(* ================================================================== *)
(** ** Tool selection *)

Lemma contains_in_empty (needle : string) : needle <> "" -> contains needle "" = false.
Proof. destruct needle; [contradiction|reflexivity]. Qed.

(** On plain descriptors the search loop finds the first tool whose name
    contains the needle, and never raises. *)
Lemma first_tool_named_find (needle : string) (tools : list json) :
  needle <> "" ->
  forallb plain_tool tools = true ->
  first_tool_named needle tools =
    Return (match find (name_has needle) tools with Some t => t | None => JNull end).
Proof.
  intros Hne. induction tools as [|t tools IH]; intros Hplain; [reflexivity|].
  cbn [forallb] in Hplain. apply andb_prop in Hplain. destruct Hplain as [Ht Hrest].
  cbn [first_tool_named find].
  destruct t as [| | | | | |fields]; try discriminate Ht.
  cbn [plain_tool] in Ht. cbn [py_get name_has rbind].
  destruct (lookup "name" fields) as [[| | | |s| |]|]; try discriminate Ht; cbn [py_in rbind].
  - destruct (contains needle s); [reflexivity|]. apply IH. exact Hrest.
  - rewrite (contains_in_empty needle Hne). apply IH. exact Hrest.
Qed.

Lemma found_tool (needle : string) (tools : list json) (t : json) :
  find (name_has needle) tools = Some t ->
  truthy t = true /\ py_get t "name" JNull = Return (name_of t).
Proof.
  intros H. apply find_some in H. destruct H as [_ H].
  destruct t as [| | | | | |fields]; try discriminate H.
  cbn [name_has] in H. cbn [py_get name_of].
  destruct fields; [discriminate H|]. split; reflexivity.
Qed.

Lemma found_tool_printable (needle : string) (tools : list json) (t : json) :
  names_printable tools = true ->
  find (name_has needle) tools = Some t ->
  shown_surrogate (name_of t) = false.
Proof.
  intros Hnames H. apply find_some in H. destruct H as [Hin _].
  unfold names_printable in Hnames. rewrite forallb_forall in Hnames.
  apply Hnames in Hin. apply negb_true_iff in Hin. exact Hin.
Qed.

Lemma or_empty_dict_cons (kv : string * json) (rest : list (string * json)) :
  or_empty_dict (JObj (kv :: rest)) = JObj (kv :: rest).
Proof. reflexivity. Qed.

(** What can be dumped at line 87 holds no lone surrogate in any part. *)
Lemma holds_surrogate_lookup (key : string) (fields : list (string * json)) (v : json) :
  holds_surrogate (JObj fields) = false ->
  lookup key fields = Some v ->
  holds_surrogate v = false.
Proof.
  cbn [holds_surrogate]. induction fields as [|[k x] fields IH]; [discriminate|].
  cbn [existsb lookup]. intros H Hv.
  apply orb_false_elim in H. destruct H as [Hkx Hrest].
  apply orb_false_elim in Hkx. destruct Hkx as [_ Hx].
  destruct (String.eqb k key).
  - injection Hv as <-. exact Hx.
  - apply IH; assumption.
Qed.

Lemma holds_surrogate_names (tools : list json) :
  holds_surrogate (JArr tools) = false -> names_printable tools = true.
Proof.
  cbn [holds_surrogate]. unfold names_printable.
  induction tools as [|t tools IH]; [reflexivity|].
  cbn [existsb forallb]. intros H.
  apply orb_false_elim in H. destruct H as [Ht Hrest].
  rewrite (IH Hrest), andb_true_r. apply negb_true_iff.
  destruct t as [| | | | | |fields]; try reflexivity.
  cbn [name_of]. destruct (lookup "name" fields) as [v|] eqn:Hv; [|reflexivity].
  pose proof (holds_surrogate_lookup "name" fields v Ht Hv) as H.
  destruct v; try reflexivity. exact H.
Qed.

(** The requests posted by lines 171-216 for a list of plain descriptors
    whose names can be printed. *)
Lemma call_tools_posts (E : env) (m : machine) (url : string) (tools : list json) :
  requests_contract E ->
  replies_printable E ->
  message_url (self m) = Some url ->
  url <> "" ->
  has_surrogate url = false ->
  forallb plain_tool tools = true ->
  names_printable tools = true ->
  tools <> [] ->
  exists out,
    call_tools E (JArr tools) m = (Return tt, logged m out)
    /\ posts out = map (pair url) (issued_calls tools).
Proof.
  intros HE HP Hurl Hne Hsur Hplain Hnames Hnil.
  unfold call_tools, issued_calls. cbn [py_iter].
  unfold bind at 1. unfold lift at 1. cbv beta iota.
  rewrite (first_tool_named_find "findByAgentId" tools) by (discriminate || exact Hplain).
  unfold bind at 1. unfold lift at 1. cbv beta iota.
  (* the findByAgentId tool *)
  assert (Hfind : exists out1,
            (if truthy match find (name_has "findByAgentId") tools with
                       | Some t => t | None => JNull end
             then
               tool_name <- lift (py_get match find (name_has "findByAgentId") tools with
                                         | Some t => t | None => JNull end "name" JNull) ;;
               call_result <- test_call_tool_with_agent_id E tool_name agent_id ;;
               if truthy call_result then print (PCallOk tool_name)
               else print (PCallFailed tool_name)
             else ret tt) m = (Return tt, logged m out1)
            /\ posts out1 = map (pair url)
                              match find (name_has "findByAgentId") tools with
                              | Some t => [find_call t] | None => [] end).
  { destruct (find (name_has "findByAgentId") tools) as [t|] eqn:Hf.
    - destruct (found_tool _ _ _ Hf) as [Htruthy Hname]. rewrite Htruthy, Hname.
      pose proof (found_tool_printable _ _ _ Hnames Hf) as Hshown.
      unfold bind at 1. unfold lift at 1. cbv beta iota.
      destruct (test_call_tool_with_agent_id_run E (name_of t) agent_id m url
                  HE HP Hurl Hne Hsur Hshown eq_refl)
        as [v [out [Hrun Hposts]]].
      rewrite (bind_run _ _ m _ v Hrun), report_run, logged_logged by exact Hshown.
      eexists. split; [reflexivity|].
      rewrite posts_app, Hposts. reflexivity.
    - exists []. split; [|reflexivity]. cbn. unfold ret, logged. rewrite app_nil_r.
      destruct m; reflexivity. }
  destruct Hfind as [out1 [Hrun1 Hposts1]].
  rewrite (bind_run _ _ m _ tt Hrun1).
  unfold bind at 1. unfold lift at 1. cbv beta iota.
  rewrite (first_tool_named_find "save" tools) by (discriminate || exact Hplain).
  unfold bind at 1. unfold lift at 1. cbv beta iota.
  set (m1 := logged m out1).
  assert (Hurl1 : message_url (self m1) = Some url) by exact Hurl.
  destruct (find (name_has "save") tools) as [t|] eqn:Hs.
  - destruct (found_tool _ _ _ Hs) as [Htruthy Hname]. rewrite Htruthy, Hname.
    pose proof (found_tool_printable _ _ _ Hnames Hs) as Hshown.
    unfold bind at 1. unfold lift at 1. cbv beta iota.
    destruct (test_call_tool_run E (name_of t) (JObj [("body", test_data)]) m1 url
                HE HP Hurl1 Hne Hsur Hshown)
      as [v [out [Hrun Hposts]]].
    rewrite (bind_run _ _ m1 _ v Hrun), report_run by exact Hshown.
    unfold m1. rewrite !logged_logged.
    eexists. split; [reflexivity|].
    rewrite !posts_app, Hposts1, Hposts, map_app. reflexivity.
  - cbn [truthy].
    destruct tools as [|t0 rest]; [contradiction|]. cbn [py_first].
    unfold bind at 1. unfold lift at 1. cbv beta iota.
    cbn [forallb] in Hplain. apply andb_prop in Hplain. destruct Hplain as [Ht0 _].
    unfold names_printable in Hnames. cbn [forallb] in Hnames.
    apply andb_prop in Hnames. destruct Hnames as [Hshown _].
    apply negb_true_iff in Hshown.
    destruct t0 as [| | | | | |fields]; try discriminate Ht0.
    cbn [py_get]. unfold bind at 1. unfold lift at 1. cbv beta iota.
    change (match lookup "name" fields with Some x => x | None => JNull end)
      with (name_of (JObj fields)).
    destruct (truthy (name_of (JObj fields))).
    + destruct (test_call_tool_run E (name_of (JObj fields)) JNull m1 url
                  HE HP Hurl1 Hne Hsur Hshown)
        as [v [out [Hrun Hposts]]].
      rewrite (bind_run _ _ m1 _ v Hrun), report_run by exact Hshown.
      unfold m1. rewrite !logged_logged.
      eexists. split; [reflexivity|].
      rewrite !posts_app, Hposts1, Hposts, map_app. reflexivity.
    + unfold ret, m1. exists out1. split; [reflexivity|].
      rewrite Hposts1, map_app. cbn [map]. rewrite app_nil_r. reflexivity.
Qed.

(* ================================================================== *)
(** ** The steps of [main] after the handshake *)

Lemma test_initialize_run (E : env) (m : machine) (url : string) :
  message_url (self m) = Some url ->
  url <> "" ->
  has_surrogate url = false ->
  documented (requests_post E (List.length (posts (log m))) url
                initialize_request json_headers) ->
  printable (requests_post E (List.length (posts (log m))) url
               initialize_request json_headers) ->
  exists out,
    test_initialize E m =
      (Return (returned (requests_post E (List.length (posts (log m))) url
                           initialize_request json_headers)),
       logged m out)
    /\ posts out = [(url, initialize_request)].
Proof.
  intros Hurl Hne Hsur HE HP. unfold test_initialize.
  rewrite (bind_run _ _ m _ tt (print_run PTestInitialize m eq_refl)).
  assert (Hn : posts (log (logged m [Print PTestInitialize])) = posts (log m)).
  { cbn [log logged]. rewrite posts_app. apply app_nil_r. }
  destruct (send_mcp_request_returns E "initialize" initialize_params 1
              (logged m [Print PTestInitialize]) url Hurl Hne Hsur) as [d Hrun].
  { rewrite Hn. exact HE. }
  { rewrite Hn. exact HP. }
  rewrite Hn in Hrun. rewrite Hrun, logged_logged.
  eexists. split; [reflexivity|].
  change (Print PTestInitialize :: ?l) with ([Print PTestInitialize] ++ l).
  rewrite (posts_issue url _ [Print PTestInitialize] d). reflexivity.
Qed.

Lemma test_list_tools_run (E : env) (m : machine) (url : string) :
  message_url (self m) = Some url ->
  url <> "" ->
  has_surrogate url = false ->
  documented (requests_post E (List.length (posts (log m))) url list_request json_headers) ->
  printable (requests_post E (List.length (posts (log m))) url list_request json_headers) ->
  exists out,
    test_list_tools E m =
      (Return (returned (requests_post E (List.length (posts (log m))) url
                           list_request json_headers)),
       logged m out)
    /\ posts out = [(url, list_request)].
Proof.
  intros Hurl Hne Hsur HE HP. unfold test_list_tools.
  rewrite (bind_run _ _ m _ tt (print_run PTestListTools m eq_refl)).
  assert (Hn : posts (log (logged m [Print PTestListTools])) = posts (log m)).
  { cbn [log logged]. rewrite posts_app. apply app_nil_r. }
  destruct (send_mcp_request_returns E "tools/list" JNull 1
              (logged m [Print PTestListTools]) url Hurl Hne Hsur) as [d Hrun].
  { rewrite Hn. exact HE. }
  { rewrite Hn. exact HP. }
  rewrite Hn in Hrun. rewrite Hrun, logged_logged.
  eexists. split; [reflexivity|].
  change (Print PTestListTools :: ?l) with ([Print PTestListTools] ++ l).
  rewrite (posts_issue url _ [Print PTestListTools] d). reflexivity.
Qed.

(** Lines 155-160: the report follows the truth value of what
    [test_initialize] returned. *)
Lemma step_initialize_run (E : env) (m : machine) (url : string) :
  message_url (self m) = Some url ->
  url <> "" ->
  has_surrogate url = false ->
  documented (requests_post E (List.length (posts (log m))) url
                initialize_request json_headers) ->
  printable (requests_post E (List.length (posts (log m))) url
               initialize_request json_headers) ->
  let v := returned (requests_post E (List.length (posts (log m))) url
                       initialize_request json_headers) in
  exists out,
    test_initialize E m = (Return v, logged m out)
    /\ step_initialize E m =
         (Return tt, logged m (out ++ [Print (if truthy v then PInitOk else PInitFailed)]))
    /\ posts out = [(url, initialize_request)].
Proof.
  intros Hurl Hne Hsur HE HP v. unfold step_initialize.
  destruct (test_initialize_run E m url Hurl Hne Hsur HE HP) as [out [Hrun Hposts]].
  rewrite (bind_run _ _ m _ _ Hrun), report_run, logged_logged by reflexivity.
  exists out. split; [exact Hrun|]. split; [reflexivity|exact Hposts].
Qed.

Lemma after_connect_run (E : env) (m : machine) (url : string) :
  requests_contract E ->
  replies_printable E ->
  message_url (self m) = Some url ->
  url <> "" ->
  has_surrogate url = false ->
  posts (log m) = [] ->
  let v0 := returned (requests_post E 0 url initialize_request json_headers) in
  let v1 := returned (requests_post E 1 url list_request json_headers) in
  exists out,
    after_connect E m = (after_list_tools E v1 ;; print PDone)%py (logged m out)
    /\ posts out = [(url, initialize_request); (url, list_request)]
    /\ In (Print (if truthy v0 then PInitOk else PInitFailed)) out.
Proof.
  intros HE HP Hurl Hne Hsur Hposts v0 v1. unfold after_connect.
  rewrite (bind_run _ _ m _ tt (print_run PConnectOk m eq_refl)).
  set (m1 := logged m [Print PConnectOk]).
  assert (Hp1 : posts (log m1) = []).
  { unfold m1. cbn [log logged]. rewrite posts_app, Hposts. reflexivity. }
  destruct (step_initialize_run E m1 url Hurl Hne Hsur (HE _ _ _ _) (HP _ _ _ _))
    as [out1 [_ [Hrun1 Hposts1]]].
  rewrite Hp1 in Hrun1. cbn [List.length] in Hrun1. fold v0 in Hrun1.
  rewrite (bind_run _ _ m1 _ tt Hrun1).
  set (m2 := logged m1 _).
  assert (Hp2 : posts (log m2) = [(url, initialize_request)]).
  { unfold m2. cbn [log logged]. rewrite !posts_app, Hp1, Hposts1. reflexivity. }
  unfold step_list_tools.
  destruct (test_list_tools_run E m2 url Hurl Hne Hsur (HE _ _ _ _) (HP _ _ _ _))
    as [out2 [Hrun2 Hposts2]].
  rewrite Hp2 in Hrun2. cbn [List.length] in Hrun2. fold v1 in Hrun2.
  unfold bind at 1. unfold bind at 1. rewrite Hrun2.
  unfold m2, m1. rewrite !logged_logged.
  eexists. split; [reflexivity|]. split.
  - rewrite !posts_app, Hposts1, Hposts2. reflexivity.
  - apply in_or_app. right. apply in_or_app. left. apply in_or_app. right. left. reflexivity.
Qed.

(** The start of [main]: the banner, then the handshake on the client
    of line 146. *)
Lemma main_banner (E : env) :
  main E =
    (connected <- connect_sse E ;;
     if negb connected then print PConnectFailed else after_connect E)%py
      (logged fresh [Print PTitle; Print (PServer BASE_URL);
                     Print (PEndpointId ENDPOINT_ID); Print PRule]).
Proof. reflexivity. Qed.

(** [main] after a successful handshake that produced a non-empty
    message URL: it has posted [initialize] and [tools/list], and goes on
    with what [tools/list] returned. *)
Lemma main_run (E : env) (sid url : string) :
  requests_contract E ->
  replies_printable E ->
  handshake E (self fresh) = Some (sid, Return url) ->
  url <> "" ->
  has_surrogate sid = false ->
  has_surrogate url = false ->
  let v0 := returned (requests_post E 0 url initialize_request json_headers) in
  let v1 := returned (requests_post E 1 url list_request json_headers) in
  exists m2,
    main E = (after_list_tools E v1 ;; print PDone)%py m2
    /\ message_url (self m2) = Some url
    /\ posts (log m2) = [(url, initialize_request); (url, list_request)]
    /\ In (Print (if truthy v0 then PInitOk else PInitFailed)) (log m2).
Proof.
  intros HE HP Hh Hne Hsid Hsur v0 v1. rewrite main_banner.
  match goal with |- context [bind (connect_sse E) _ ?mm] => set (m0 := mm) end.
  destruct (connect_sse_spec E m0) as [d [_ [Hd Hrun]]].
  change (self m0) with (self fresh) in Hrun. rewrite Hh, Hsid, Hsur in Hrun.
  cbn [orb negb] in Hrun.
  rewrite (bind_run _ _ m0 _ true Hrun). cbn [negb].
  match goal with |- context [after_connect E ?mm] => set (m1 := mm) end.
  destruct (after_connect_run E m1 url HE HP eq_refl Hne Hsur) as [out [Hrun1 [Hposts Hin]]].
  { unfold m1. cbn [log]. rewrite posts_app, Hd. reflexivity. }
  rewrite Hrun1. exists (logged m1 out). split; [reflexivity|]. split; [reflexivity|]. split.
  - unfold m1. cbn [log logged]. rewrite !posts_app, Hd, Hposts. reflexivity.
  - cbn [log logged]. apply in_or_app. right. exact Hin.
Qed.

(** Lines 164-218 on a result of the empty case. *)
Lemma after_list_tools_no_tools (E : env) (tools_result : json) (m : machine) :
  no_tools tools_result ->
  after_list_tools E tools_result m =
    (Return tt, logged m [Print (if truthy tools_result then PListOk else PListFailed)]).
Proof.
  intros [fields [-> H]]. unfold after_list_tools.
  destruct fields as [|kv fields']; [reflexivity|].
  set (fields := kv :: fields') in *.
  change (truthy (JObj fields)) with true. cbv iota.
  rewrite (bind_run _ _ m _ tt (print_run PListOk m eq_refl)).
  unfold bind, lift. cbn [py_in py_getitem]. unfold has_key.
  destruct H as [H|[r [H Hr]]]; rewrite H; [reflexivity|].
  cbn [py_in]. unfold has_key.
  destruct Hr as [Hr|Hr]; rewrite Hr; [reflexivity|].
  cbn [py_getitem]. rewrite Hr. reflexivity.
Qed.

(** Lines 164-218 on a result that carries a non-empty tool list. *)
Lemma after_list_tools_tools (E : env) (fields rf : list (string * json))
      (tools : list json) (m : machine) :
  lookup "result" fields = Some (JObj rf) ->
  lookup "tools" rf = Some (JArr tools) ->
  tools <> [] ->
  after_list_tools E (JObj fields) m = call_tools E (JArr tools) (logged m [Print PListOk]).
Proof.
  intros Hresult Htools Hnil. unfold after_list_tools.
  destruct fields as [|kv fields']; [discriminate Hresult|].
  set (fields := kv :: fields') in *.
  change (truthy (JObj fields)) with true. cbv iota.
  rewrite (bind_run _ _ m _ tt (print_run PListOk m eq_refl)).
  unfold bind, lift. cbn [py_in py_getitem]. unfold has_key. rewrite !Hresult.
  cbn [py_in py_getitem]. unfold has_key. rewrite !Htools.
  destruct tools; [contradiction|]. reflexivity.
Qed.

Lemma issued_calls_are_tools_calls (url : string) (tools : list json) :
  filter is_tools_call (map (pair url) (issued_calls tools)) = map (pair url) (issued_calls tools).
Proof.
  unfold issued_calls.
  destruct (find (name_has "findByAgentId") tools);
    destruct (find (name_has "save") tools); try reflexivity;
    destruct tools as [|t rest]; try reflexivity;
    destruct (truthy (name_of t)); reflexivity.
Qed.

(** The [tools/call]s of [main] for a non-empty list of plain descriptors. *)
Lemma main_tools_calls (E : env) (sid url : string) (fields rf : list (string * json))
      (tools : list json) :
  requests_contract E ->
  replies_printable E ->
  handshake E (self fresh) = Some (sid, Return url) ->
  url <> "" ->
  has_surrogate sid = false ->
  has_surrogate url = false ->
  returned (requests_post E 1 url list_request json_headers) = JObj fields ->
  lookup "result" fields = Some (JObj rf) ->
  lookup "tools" rf = Some (JArr tools) ->
  tools <> [] ->
  forallb plain_tool tools = true ->
  fst (main E) = Return tt
  /\ tools_calls (log (snd (main E))) = map (pair url) (issued_calls tools).
Proof.
  intros HE HP Hh Hne Hsid Hsur Hv1 Hresult Htools Hnil Hplain.
  destruct (main_run E sid url HE HP Hh Hne Hsid Hsur) as [m2 [Hmain [Hurl [Hposts _]]]].
  cbv zeta in Hmain. rewrite Hv1 in Hmain.
  assert (Hnames : names_printable tools = true).
  { apply holds_surrogate_names.
    apply (holds_surrogate_lookup "tools" rf _ (holds_surrogate_lookup "result" fields _
             ltac:(rewrite <- Hv1; apply HP) Hresult) Htools). }
  destruct (call_tools_posts E (logged m2 [Print PListOk]) url tools
              HE HP Hurl Hne Hsur Hplain Hnames Hnil)
    as [out [Hrun Hout]].
  unfold bind in Hmain.
  rewrite (after_list_tools_tools E fields rf tools m2 Hresult Htools Hnil) in Hmain.
  rewrite Hrun, print_run, !logged_logged in Hmain by reflexivity.
  rewrite Hmain. split; [reflexivity|].
  cbn [snd log logged]. unfold tools_calls.
  rewrite !posts_app, Hposts, Hout. cbn [posts app].
  rewrite app_nil_r.
  change (filter is_tools_call (map (pair url) (issued_calls tools))
          = map (pair url) (issued_calls tools)).
  apply issued_calls_are_tools_calls.
Qed.

Lemma scripted_contract (code : Z) (uri : string) (replies : list (result Response)) :
  Forall documented replies -> requests_contract (scripted code uri replies).
Proof.
  intros H n url body hdrs. cbn [scripted requests_post]. revert n.
  induction H as [|r replies Hr _ IH]; intros [|n]; cbn [nth]; auto; reflexivity.
Qed.

Lemma scripted_printable (code : Z) (uri : string) (replies : list (result Response)) :
  Forall printable replies -> replies_printable (scripted code uri replies).
Proof.
  intros H n url body hdrs. cbn [scripted requests_post]. revert n.
  induction H as [|r replies Hr _ IH]; intros [|n]; cbn [nth]; auto;
    split; reflexivity.
Qed.

(* ================================================================== *)
(** ** Logs only grow, by requests of the JSON-RPC methods *)

Lemma http_requests_prints (d : list output) : http_requests (map Print d) = [].
Proof. induction d; simpl; auto. Qed.

Lemma http_requests_request_effects (url : string) (body : json) :
  http_requests (request_effects url body) = [HttpPost url body json_headers].
Proof. reflexivity. Qed.

Lemma logged_nil (m : machine) : logged m [] = m.
Proof. destruct m. unfold logged. cbn. rewrite app_nil_r. reflexivity. Qed.

Lemma issues_ret {A} (a : A) : issues 0 (ret a).
Proof.
  intros m. exists []. cbn [snd ret]. rewrite logged_nil. repeat split; auto.
Qed.

Lemma issues_raise {A} (e : exn) : issues 0 (@raise A e).
Proof.
  intros m. exists []. cbn [snd raise]. rewrite logged_nil. repeat split; auto.
Qed.

Lemma issues_lift {A} (r : result A) : issues 0 (lift r).
Proof.
  intros m. exists []. cbn [snd lift]. rewrite logged_nil. repeat split; auto.
Qed.

Lemma issues_print (o : output) : issues 0 (print o).
Proof.
  intros m. unfold print. destruct (unprintable o).
  - exists []. cbn [snd raise]. rewrite logged_nil. repeat split; auto.
  - exists [Print o]. repeat split; auto.
Qed.

Lemma issues_weaken {A} (n k : nat) (x : M A) : n <= k -> issues n x -> issues k x.
Proof.
  intros Hle Hx m. destruct (Hx m) as [out [H1 [H2 H3]]].
  exists out. repeat split; auto. lia.
Qed.

Lemma issues_bind {A B} (n k : nat) (x : M A) (f : A -> M B) :
  issues n x -> (forall a, issues k (f a)) -> issues (n + k) (bind x f).
Proof.
  intros Hx Hf m. unfold bind.
  destruct (Hx m) as [out1 [H1 [H2 H3]]].
  destruct (x m) as [[a|e] m1]; cbn [snd] in H1; subst m1.
  - destruct (Hf a (logged m out1)) as [out2 [K1 [K2 K3]]].
    exists (out1 ++ out2). rewrite K1, logged_logged.
    split; [reflexivity|]. rewrite http_requests_app. split.
    + apply Forall_app. split; assumption.
    + rewrite length_app. lia.
  - exists out1. repeat split; auto. lia.
Qed.

Lemma issues_if {A} (n : nat) (b : bool) (x y : M A) :
  issues n x -> issues n y -> issues n (if b then x else y).
Proof. destruct b; auto. Qed.

(** [send_mcp_request] with the default id: one request at most. *)
Lemma issues_send_mcp_request (E : env) (method : string) (params : json) :
  issues 1 (send_mcp_request E method params 1).
Proof.
  intros m.
  destruct (truthy_str (message_url (self m))) eqn:Htruthy.
  - destruct (message_url (self m)) as [url|] eqn:Hurl; [|discriminate Htruthy].
    assert (Hne : url <> "").
    { intros ->. discriminate Htruthy. }
    destruct (has_surrogate url) eqn:Hsur.
    { rewrite (send_mcp_request_unprintable E method params 1 m url Hurl Hne Hsur).
      exists []. cbn [snd]. rewrite logged_nil. repeat split; auto. }
    destruct (send_mcp_request_log E method params 1 m url Hurl Hne Hsur) as [d Hd].
    eexists. split; [exact Hd|].
    rewrite http_requests_app, http_requests_prints, http_requests_request_effects.
    split; [|cbn; lia].
    constructor; [|constructor]. cbn [rpc_request app].
    split; [exact Hurl|]. split; [reflexivity|]. eexists; eexists; reflexivity.
  - rewrite (send_mcp_request_unset E method params 1 m Htruthy).
    exists [Print PNoEndpoint]. repeat split; auto.
Qed.

Lemma issues_test_initialize (E : env) : issues 1 (test_initialize E).
Proof.
  unfold test_initialize. apply (issues_bind 0 1); [apply issues_print|].
  intros _. apply issues_send_mcp_request.
Qed.

Lemma issues_test_list_tools (E : env) : issues 1 (test_list_tools E).
Proof.
  unfold test_list_tools. apply (issues_bind 0 1); [apply issues_print|].
  intros _. apply issues_send_mcp_request.
Qed.

Lemma issues_test_call_tool (E : env) (tool_name arguments : json) :
  issues 1 (test_call_tool E tool_name arguments).
Proof.
  unfold test_call_tool. apply (issues_bind 0 1); [apply issues_print|].
  intros _. apply issues_send_mcp_request.
Qed.

Lemma issues_test_call_tool_with_agent_id (E : env) (tool_name : json) (agent : string) :
  issues 1 (test_call_tool_with_agent_id E tool_name agent).
Proof.
  unfold test_call_tool_with_agent_id. apply (issues_bind 0 1); [apply issues_print|].
  intros _. apply issues_send_mcp_request.
Qed.

Ltac quiet :=
  repeat first
    [ apply issues_ret | apply issues_raise | apply issues_lift | apply issues_print
    | apply issues_if
    | apply (issues_bind 0 0); [|intros ?] ].

(** A call followed by its report (lines 181-185, 202-206, 212-216). *)
Lemma issues_then_report {A} (x : M A) (report : A -> M unit) :
  issues 1 x -> (forall a, issues 0 (report a)) -> issues 1 (bind x report).
Proof. intros Hx Hr. apply (issues_bind 1 0); assumption. Qed.

Lemma issues_call_tools (E : env) (tools : json) : issues 2 (call_tools E tools).
Proof.
  unfold call_tools.
  apply (issues_bind 0 2); [quiet|intros items].
  apply (issues_bind 0 2); [quiet|intros find_tool].
  apply (issues_bind 1 1).
  - apply issues_if; [|apply (issues_weaken 0 1); [lia|quiet]].
    apply (issues_bind 0 1); [quiet|intros tool_name].
    apply issues_then_report; [apply issues_test_call_tool_with_agent_id|intros r; quiet].
  - intros _.
    apply (issues_bind 0 1); [quiet|intros items'].
    apply (issues_bind 0 1); [quiet|intros save_tool].
    apply issues_if.
    + apply (issues_bind 0 1); [quiet|intros tool_name].
      apply issues_then_report; [apply issues_test_call_tool|intros r; quiet].
    + apply (issues_bind 0 1); [quiet|intros first_tool].
      apply (issues_bind 0 1); [quiet|intros tool_name].
      apply issues_if; [|apply (issues_weaken 0 1); [lia|quiet]].
      apply issues_then_report; [apply issues_test_call_tool|intros r; quiet].
Qed.

Lemma issues_after_list_tools (E : env) (tools_result : json) :
  issues 2 (after_list_tools E tools_result).
Proof.
  unfold after_list_tools.
  apply issues_if; [|apply (issues_weaken 0 2); [lia|quiet]].
  apply (issues_bind 0 2); [quiet|intros _].
  apply (issues_bind 0 2); [quiet|intros has_result].
  apply (issues_bind 0 2); [quiet|intros has_tools].
  apply issues_if; [|apply (issues_weaken 0 2); [lia|quiet]].
  apply (issues_bind 0 2); [quiet|intros r].
  apply (issues_bind 0 2); [quiet|intros tools].
  apply issues_if; [apply issues_call_tools|apply (issues_weaken 0 2); [lia|quiet]].
Qed.

Lemma issues_after_connect (E : env) : issues 4 (after_connect E).
Proof.
  unfold after_connect, step_initialize, step_list_tools.
  apply (issues_bind 0 4); [quiet|intros _].
  apply (issues_bind 1 3).
  - apply issues_then_report; [apply issues_test_initialize|intros r; quiet].
  - intros _. apply (issues_bind 3 0); [|intros _; quiet].
    apply (issues_bind 1 2); [apply issues_test_list_tools|].
    intros tools_result. apply issues_after_list_tools.
Qed.


(* ================================================================== *)
(** ** The scripted sequence: tool selection *)

(** C1, as the code has it.  For a tools/list result that carries a
    non-empty list of tool descriptors (dicts whose name, when present, is
    a [str]), after a handshake and replies that can be printed, [main]
    returns, and its [tools/call] requests are: first, if some tool's name
    contains [findByAgentId], one for the first such tool with
    [{agentId: <test UUID>}]; then, if some tool's name contains [save], one
    for the first such tool with [{body: <test object>}] -- whether or not
    a [findByAgentId] tool was called before.  When no name contains
    either, the only call is for the first tool of the list, with no
    arguments, if its name is truthy. *)
Theorem main_tool_selection
        (E : env) (sid url : string) (fields rf : list (string * json)) (tools : list json) :
  requests_contract E ->
  replies_printable E ->
  handshake E (self fresh) = Some (sid, Return url) ->
  url <> "" ->
  has_surrogate sid = false ->
  has_surrogate url = false ->
  returned (requests_post E 1 url list_request json_headers) = JObj fields ->
  lookup "result" fields = Some (JObj rf) ->
  lookup "tools" rf = Some (JArr tools) ->
  tools <> [] ->
  forallb plain_tool tools = true ->
  let calls := tools_calls (log (snd (main E))) in
  let found := find (name_has "findByAgentId") tools in
  let saved := find (name_has "save") tools in
  fst (main E) = Return tt
  /\ (forall f s, found = Some f -> saved = Some s ->
                  calls = [(url, find_call f); (url, save_call s)])
  /\ (forall s, found = None -> saved = Some s -> calls = [(url, save_call s)])
  /\ (found = None -> saved = None ->
      calls = match tools with
              | t :: _ => if truthy (name_of t) then [(url, plain_call t)] else []
              | [] => []
              end)
  /\ (forall f, found = Some f -> exists rest, calls = (url, find_call f) :: rest).
Proof.
  intros HE HP Hh Hne Hsid Hsur Hv1 Hresult Htools Hnil Hplain calls found saved.
  destruct (main_tools_calls E sid url fields rf tools
              HE HP Hh Hne Hsid Hsur Hv1 Hresult Htools Hnil Hplain)
    as [Hret Hcalls].
  fold calls in Hcalls. unfold issued_calls in Hcalls. fold found saved in Hcalls.
  split; [exact Hret|]. repeat split.
  - intros f s Hf Hs. rewrite Hcalls, Hf, Hs. reflexivity.
  - intros s Hf Hs. rewrite Hcalls, Hf, Hs. reflexivity.
  - intros Hf Hs. rewrite Hcalls, Hf, Hs. cbn [app].
    destruct tools as [|t rest]; [reflexivity|].
    destruct (truthy (name_of t)); reflexivity.
  - intros f Hf. rewrite Hcalls, Hf. cbn [app map]. eexists. reflexivity.
Qed.

Lemma three_tools_server_contract : requests_contract three_tools_server.
Proof.
  apply scripted_contract. repeat constructor.
Defined.

Lemma three_tools_server_printable : replies_printable three_tools_server.
Proof.
  apply scripted_printable. repeat constructor.
Defined.

Lemma main_tool_selection_witness :
  tools_calls (log (snd (main three_tools_server)))
  = [("http://localhost:3000/msg?session_id=abc123", find_call (tool "findByAgentIdTool"));
     ("http://localhost:3000/msg?session_id=abc123", save_call (tool "saveThing"))].
Proof.
  destruct (main_tool_selection three_tools_server "abc123"
              "http://localhost:3000/msg?session_id=abc123"
              [("result", JObj [("tools", JArr three_tools)])]
              [("tools", JArr three_tools)] three_tools)
    as [_ [H _]].
  - exact three_tools_server_contract.
  - exact three_tools_server_printable.
  - reflexivity.
  - discriminate.
  - reflexivity.
  - reflexivity.
  - reflexivity.
  - reflexivity.
  - reflexivity.
  - discriminate.
  - reflexivity.
  - apply H; reflexivity.
Defined.

(** For the list a, findByAgentIdTool, saveThing the script issues two
    [tools/call]s: findByAgentIdTool and then saveThing. *)
Lemma main_calls_find_and_save :
  map snd (tools_calls (log (snd (main three_tools_server))))
  = [find_call (tool "findByAgentIdTool"); save_call (tool "saveThing")]
  /\ List.length (tools_calls (log (snd (main three_tools_server)))) = 2.
Proof. split; reflexivity. Qed.

(** The scenario of one tool findByAgentId_v1: called with the agent id,
    and once more, as first tool of the list, with no arguments. *)
Example main_one_find_tool :
  map snd (tools_calls (log (snd (main
    (scripted 200 "/msg?session_id=abc123"
       [ok_reply;
        tools_reply ("{" ++ quoted "result" ++ ": {" ++ quoted "tools" ++ ": ["
                     ++ tool_text "findByAgentId_v1" ++ "]}}")
                    [tool "findByAgentId_v1"];
        ok_reply; ok_reply])))))
  = [find_call (tool "findByAgentId_v1"); plain_call (tool "findByAgentId_v1")].
Proof. reflexivity. Qed.

(** A reply that cannot be printed ends the run: the print of line 87
    raises [UnicodeEncodeError], which no [except] clause of
    [send_mcp_request] catches, after the one request of the initialize
    step. *)
Example main_unprintable_reply :
  fst (main surrogate_reply_server) = Raise unicode_error
  /\ map snd (posts (log (snd (main surrogate_reply_server)))) = [initialize_request].
Proof. split; reflexivity. Qed.

(** C7, as the code has it.  When the tools/list result is a dict without
    the [result] key, or one whose [result] is a dict without the [tools]
    key or with [tools] equal to the empty list, [main] -- after a
    handshake and replies that can be printed -- issues no [tools/call] and
    raises nothing: after the report on tools/list it prints the completion
    banner and returns. *)
Theorem main_without_tools (E : env) (sid url : string) :
  requests_contract E ->
  replies_printable E ->
  handshake E (self fresh) = Some (sid, Return url) ->
  url <> "" ->
  has_surrogate sid = false ->
  has_surrogate url = false ->
  let tools_result := returned (requests_post E 1 url list_request json_headers) in
  no_tools tools_result ->
  fst (main E) = Return tt
  /\ tools_calls (log (snd (main E))) = []
  /\ posts (log (snd (main E))) = [(url, initialize_request); (url, list_request)]
  /\ exists before,
       log (snd (main E)) =
         before ++ [Print (if truthy tools_result then PListOk else PListFailed); Print PDone].
Proof.
  intros HE HP Hh Hne Hsid Hsur tools_result Hno.
  destruct (main_run E sid url HE HP Hh Hne Hsid Hsur) as [m2 [Hmain [_ [Hposts _]]]].
  cbv zeta in Hmain. fold tools_result in Hmain.
  unfold bind in Hmain.
  rewrite (after_list_tools_no_tools E tools_result m2 Hno), print_run, logged_logged in Hmain
    by reflexivity.
  rewrite Hmain. cbn [fst snd log logged]. split; [reflexivity|]. split; [|split].
  - unfold tools_calls. rewrite posts_app, Hposts.
    destruct (truthy tools_result); reflexivity.
  - rewrite posts_app, Hposts. destruct (truthy tools_result); reflexivity.
  - exists (log m2). reflexivity.
Qed.

Lemma main_without_tools_witness :
  fst (main no_tools_server) = Return tt
  /\ tools_calls (log (snd (main no_tools_server))) = [].
Proof.
  destruct (main_without_tools no_tools_server "abc123"
              "http://localhost:3000/msg?session_id=abc123")
    as [H1 [H2 _]].
  - apply scripted_contract. repeat constructor.
  - apply scripted_printable. repeat constructor.
  - reflexivity.
  - discriminate.
  - reflexivity.
  - reflexivity.
  - exists [("result", JObj [("tools", JArr [])])]. split; [reflexivity|].
    right. exists [("tools", JArr [])]. split; [reflexivity|]. right. reflexivity.
  - split; assumption.
Defined.

(** A tools/list result [{"result": null}] has a [result] that holds no
    [tools] key: line 168 asks whether ['tools'] is in [None], and [main]
    ends in a [TypeError], after the report on tools/list and without the
    completion banner. *)
Lemma main_raises_on_null_result :
  returned (requests_post null_result_server 1
              "http://localhost:3000/msg?session_id=abc123" list_request json_headers)
  = JObj [("result", JNull)]
  /\ fst (main null_result_server) = Raise (Exn TypeError "argument is not iterable")
  /\ last (log (snd (main null_result_server))) (Print PTitle) = Print PListOk.
Proof. repeat split. Qed.

(* ================================================================== *)
(** ** The scripted sequence: reports *)

(** What [after_list_tools] prints first follows the truth value of the
    result (lines 164-165, 217-218). *)
Lemma after_list_tools_report (E : env) (tools_result : json) (m : machine) :
  if truthy tools_result then
    exists rest, log (snd (after_list_tools E tools_result m)) = log m ++ Print PListOk :: rest
  else
    after_list_tools E tools_result m = (Return tt, logged m [Print PListFailed]).
Proof.
  unfold after_list_tools.
  destruct (truthy tools_result); [|reflexivity].
  unfold bind at 1. rewrite print_run by reflexivity.
  match goal with |- context [snd (?k (logged m _))] =>
    assert (Hk : issues 2 k)
  end.
  { apply (issues_bind 0 2); [quiet|intros has_result].
    apply (issues_bind 0 2); [quiet|intros has_tools].
    apply issues_if; [|apply (issues_weaken 0 2); [lia|quiet]].
    apply (issues_bind 0 2); [quiet|intros r].
    apply (issues_bind 0 2); [quiet|intros tools].
    apply issues_if; [apply issues_call_tools|apply (issues_weaken 0 2); [lia|quiet]]. }
  destruct (Hk (logged m [Print PListOk])) as [rest [Hrest _]].
  exists rest. rewrite Hrest. cbn [log logged]. rewrite <- app_assoc. reflexivity.
Qed.

(** C9.  The steps of [main] report by the truth value of what the method
    returned, not by its presence.  For every documented, printable outcome
    of the POST, [test_initialize] returns what [send_mcp_request] gives
    for it, having posted the initialize request, and the very next thing
    the initialize step does is to print success when that value is truthy
    and failure otherwise; so for tools/list.  A body that parses to the
    empty object [{}] is returned as such -- not as [None] -- and is
    reported as failure, with the same report as a POST that failed and
    returned [None]; after a tools/list so reported nothing more is done. *)
Theorem empty_object_reported_as_failure
        (E : env) (m : machine) (url : string) :
  message_url (self m) = Some url ->
  url <> "" ->
  has_surrogate url = false ->
  let n := List.length (posts (log m)) in
  let init := requests_post E n url initialize_request json_headers in
  let listed := requests_post E n url list_request json_headers in
  documented init -> printable init ->
  documented listed -> printable listed ->
  (exists out,
      test_initialize E m = (Return (returned init), logged m out)
      /\ posts out = [(url, initialize_request)]
      /\ step_initialize E m =
           (Return tt,
            logged m (out ++ [Print (if truthy (returned init) then PInitOk else PInitFailed)]))
      /\ (forall r, init = Return r ->
                    ~ (400 <= status_code r < 600)%Z ->
                    content r <> "" ->
                    json_result r = Return (JObj []) ->
                    returned init = JObj []
                    /\ step_initialize E m = (Return tt, logged m (out ++ [Print PInitFailed])))
      /\ (forall e, init = Raise e ->
                    returned init = JNull
                    /\ step_initialize E m = (Return tt, logged m (out ++ [Print PInitFailed]))))
  /\ (exists out,
        test_list_tools E m = (Return (returned listed), logged m out)
        /\ posts out = [(url, list_request)]
        /\ (if truthy (returned listed) then
              exists rest,
                log (snd (step_list_tools E m)) = log m ++ out ++ Print PListOk :: rest
            else
              step_list_tools E m = (Return tt, logged m (out ++ [Print PListFailed])))
        /\ (forall r, listed = Return r ->
                      ~ (400 <= status_code r < 600)%Z ->
                      content r <> "" ->
                      json_result r = Return (JObj []) ->
                      returned listed = JObj []
                      /\ step_list_tools E m = (Return tt, logged m (out ++ [Print PListFailed])))
        /\ (forall e, listed = Raise e ->
                      returned listed = JNull
                      /\ step_list_tools E m = (Return tt, logged m (out ++ [Print PListFailed])))).
Proof.
  intros Hurl Hne Hsur n init listed Hdi Hpi Hdl Hpl.
  assert (Hempty : forall r, ~ (400 <= status_code r < 600)%Z -> content r <> "" ->
                             json_result r = Return (JObj []) ->
                             returned (Return r) = JObj []).
  { intros r Hstatus Hcontent Hjson.
    unfold returned. rewrite (raise_for_status_pass r Hstatus).
    destruct (String.eqb_spec (content r) ""); [contradiction|]. rewrite Hjson. reflexivity. }
  split.
  - destruct (step_initialize_run E m url Hurl Hne Hsur Hdi Hpi)
      as [out [Hrun [Hstep Hposts]]].
    cbv zeta in Hrun, Hstep. fold n in Hrun, Hstep. fold init in Hrun, Hstep.
    exists out. split; [exact Hrun|]. split; [exact Hposts|]. split; [exact Hstep|]. split.
    + intros r Hr Hstatus Hcontent Hjson. rewrite Hstep, Hr.
      rewrite (Hempty r Hstatus Hcontent Hjson). split; reflexivity.
    + intros e He. rewrite Hstep, He. split; reflexivity.
  - destruct (test_list_tools_run E m url Hurl Hne Hsur Hdl Hpl) as [out [Hrun Hposts]].
    fold n in Hrun. fold listed in Hrun.
    assert (Hstep : step_list_tools E m
                    = after_list_tools E (returned listed) (logged m out)).
    { unfold step_list_tools. rewrite (bind_run _ _ m _ _ Hrun). reflexivity. }
    assert (Hfalsy : truthy (returned listed) = false ->
                     step_list_tools E m = (Return tt, logged m (out ++ [Print PListFailed]))).
    { intros Hf. rewrite Hstep.
      pose proof (after_list_tools_report E (returned listed) (logged m out)) as H.
      rewrite Hf in H. rewrite H, logged_logged. reflexivity. }
    exists out. split; [exact Hrun|]. split; [exact Hposts|]. split; [|split].
    + pose proof (after_list_tools_report E (returned listed) (logged m out)) as H.
      destruct (truthy (returned listed)) eqn:Ht.
      * destruct H as [rest H]. exists rest. rewrite Hstep, H.
        cbn [log logged]. rewrite <- app_assoc. reflexivity.
      * apply Hfalsy. reflexivity.
    + intros r Hr Hstatus Hcontent Hjson.
      assert (Hv : returned listed = JObj []).
      { rewrite Hr. exact (Hempty r Hstatus Hcontent Hjson). }
      split; [exact Hv|]. apply Hfalsy. rewrite Hv. reflexivity.
    + intros e He.
      assert (Hv : returned listed = JNull) by (rewrite He; reflexivity).
      split; [exact Hv|]. apply Hfalsy. rewrite Hv. reflexivity.
Qed.

Lemma empty_object_reported_as_failure_witness :
  exists out,
    test_initialize
      (scripted 200 "/msg?session_id=abc123" [Return (json_response 200 "{}" (JObj []))])
      connected
    = (Return (JObj []), logged connected out)
    /\ step_initialize
         (scripted 200 "/msg?session_id=abc123" [Return (json_response 200 "{}" (JObj []))])
         connected
       = (Return tt, logged connected (out ++ [Print PInitFailed])).
Proof.
  destruct (empty_object_reported_as_failure
              (scripted 200 "/msg?session_id=abc123"
                 [Return (json_response 200 "{}" (JObj []))])
              connected "http://localhost:3000/msg?session_id=abc123")
    as [[out [Hrun [_ [_ [Hempty _]]]]] _].
  - reflexivity.
  - discriminate.
  - reflexivity.
  - exact I.
  - split; reflexivity.
  - exact I.
  - split; reflexivity.
  - exists out. split; [exact Hrun|].
    apply (Hempty (json_response 200 "{}" (JObj []))).
    + reflexivity.
    + simpl; lia.
    + discriminate.
    + reflexivity.
Defined.

(** The same in a whole run: initialize answered with [{}]. *)
Example main_empty_initialize :
  In (Print PInitFailed)
     (log (snd (main (scripted 200 "/msg?session_id=abc123"
                        [Return (json_response 200 "{}" (JObj []))]))))
  /\ ~ In (Print PInitOk)
       (log (snd (main (scripted 200 "/msg?session_id=abc123"
                          [Return (json_response 200 "{}" (JObj []))])))).
Proof.
  split.
  - vm_compute. tauto.
  - vm_compute. intros H.
    repeat (destruct H as [H|H]; [discriminate H|]). exact H.
Qed.

(* ================================================================== *)
(** ** Tool descriptors without a name *)

Lemma nameless_plain (t : json) : nameless t -> plain_tool t = true.
Proof. intros [fields [-> H]]. cbn. rewrite H. reflexivity. Qed.

Lemma nameless_name_has (needle : string) (t : json) : nameless t -> name_has needle t = false.
Proof. intros [fields [-> H]]. cbn. rewrite H. reflexivity. Qed.

Lemma nameless_shown (t : json) : nameless t -> shown_surrogate (name_of t) = false.
Proof. intros [fields [-> H]]. cbn. rewrite H. reflexivity. Qed.

(** C10, as the code has it.  A tool descriptor without a [name] field is
    passed over by both search loops, never matching and never raising; as
    first tool of the list it gives the fallback the name [None], without
    raising, and the fallback then posts nothing.  On plain descriptors
    with printable names, when no name contains [save], [call_tools]
    returns, having posted the call for the first tool named like
    [findByAgentId] if there is one -- so that no [tools/call] is issued at
    all exactly when there is none. *)
Theorem nameless_tools_never_raise (t : json) (rest : list json) :
  nameless t ->
  first_tool_named "findByAgentId" (t :: rest) = first_tool_named "findByAgentId" rest
  /\ first_tool_named "save" (t :: rest) = first_tool_named "save" rest
  /\ rbind (py_first (JArr (t :: rest))) (fun first_tool => py_get first_tool "name" JNull)
     = Return JNull
  /\ forall (E : env) (m : machine) (url : string),
       requests_contract E ->
       replies_printable E ->
       message_url (self m) = Some url ->
       url <> "" ->
       has_surrogate url = false ->
       forallb plain_tool rest = true ->
       names_printable rest = true ->
       find (name_has "save") rest = None ->
       exists out,
         call_tools E (JArr (t :: rest)) m = (Return tt, logged m out)
         /\ posts out = map (pair url)
                          match find (name_has "findByAgentId") rest with
                          | Some f => [find_call f]
                          | None => []
                          end
         /\ (posts out = [] <-> find (name_has "findByAgentId") rest = None).
Proof.
  intros Hnameless.
  assert (Hplain := nameless_plain t Hnameless).
  assert (Hfind := nameless_name_has "findByAgentId" t Hnameless).
  assert (Hsave := nameless_name_has "save" t Hnameless).
  assert (Hshown := nameless_shown t Hnameless).
  destruct Hnameless as [fields [-> Hname]].
  split; [cbn; rewrite Hname; reflexivity|].
  split; [cbn; rewrite Hname; reflexivity|].
  split; [cbn; rewrite Hname; reflexivity|].
  intros E m url HE HP Hurl Hne Hsur Hrest Hnames Hnosave.
  destruct (call_tools_posts E m url (JObj fields :: rest) HE HP Hurl Hne Hsur)
    as [out [Hrun Hposts]].
  - cbn [forallb]. rewrite Hplain, Hrest. reflexivity.
  - unfold names_printable. cbn [forallb]. rewrite Hshown. exact Hnames.
  - discriminate.
  - assert (Hout : posts out = map (pair url)
                                 match find (name_has "findByAgentId") rest with
                                 | Some f => [find_call f]
                                 | None => []
                                 end).
    { rewrite Hposts. unfold issued_calls.
      cbn [find]. rewrite Hfind, Hsave, Hnosave.
      cbn [name_of]. rewrite Hname. cbn [truthy]. rewrite app_nil_r. reflexivity. }
    exists out. split; [exact Hrun|]. split; [exact Hout|].
    rewrite Hout. destruct (find (name_has "findByAgentId") rest); split;
      try reflexivity; discriminate.
Qed.

Lemma nameless_tools_never_raise_witness :
  exists out,
    call_tools three_tools_server
      (JArr [JObj [("description", JStr "no name")]; tool "a"]) connected
    = (Return tt, logged connected out)
    /\ posts out = [].
Proof.
  destruct (nameless_tools_never_raise (JObj [("description", JStr "no name")]) [tool "a"])
    as [_ [_ [_ H]]].
  - exists [("description", JStr "no name")]. split; reflexivity.
  - destruct (H three_tools_server connected "http://localhost:3000/msg?session_id=abc123")
      as [out [Hrun [Hposts _]]].
    + exact three_tools_server_contract.
    + exact three_tools_server_printable.
    + reflexivity.
    + discriminate.
    + reflexivity.
    + reflexivity.
    + reflexivity.
    + reflexivity.
    + exists out. split; [exact Hrun|exact Hposts].
Defined.

(** The fallback reached with a first tool that has no name, after a call
    of findByAgentId_v1: no tool is named like [save], the fallback gets
    the name [None] -- and [main] has issued one [tools/call]. *)
Lemma nameless_first_tool_after_a_call :
  returned (requests_post nameless_first_server 1
              "http://localhost:3000/msg?session_id=abc123" list_request json_headers)
  = JObj [("result", JObj [("tools", JArr nameless_first)])]
  /\ lookup "name" [("description", JStr "no name")] = None
  /\ first_tool_named "save" nameless_first = Return JNull
  /\ rbind (py_first (JArr nameless_first)) (fun first_tool => py_get first_tool "name" JNull)
     = Return JNull
  /\ fst (main nameless_first_server) = Return tt
  /\ map snd (tools_calls (log (snd (main nameless_first_server))))
     = [find_call (tool "findByAgentId_v1")].
Proof. repeat split. Qed.

(* ================================================================== *)
(** ** No request before the handshake *)

(** In [main] no request is posted unless the handshake stored a message
    URL (lines 148-151): [main] then returns after the failure message, or
    ends in the [UnicodeEncodeError] of the print of line 55. *)
Lemma main_posts_need_message_url (E : env) :
  message_url (self (snd (main E))) = None ->
  posts (log (snd (main E))) = []
  /\ (fst (main E) = Return tt \/ fst (main E) = Raise unicode_error).
Proof.
  intros Hnone. rewrite main_self in Hnone. revert Hnone.
  rewrite main_banner.
  match goal with |- context [bind (connect_sse E) _ ?mm] => set (m0 := mm) end.
  destruct (connect_sse_spec E m0) as [d [_ [Hd Hrun]]].
  destruct (connect_sse_spec E fresh) as [d' [_ [_ Hrun']]].
  change (self m0) with (self fresh) in Hrun.
  assert (Hfalse : forall m1, posts (log m1) = [] ->
            posts (log (snd ((if negb false then print PConnectFailed
                              else after_connect E) m1))) = []
            /\ fst ((if negb false then print PConnectFailed else after_connect E) m1)
               = Return tt).
  { intros m1 Hm1. cbn [negb]. rewrite print_run by reflexivity.
    cbn [fst snd log logged]. rewrite posts_app, Hm1. split; reflexivity. }
  destruct (handshake E (self fresh)) as [[sid [url|e]]|].
  - rewrite Hrun'. cbn. discriminate.
  - intros _. unfold bind. rewrite Hrun.
    destruct (has_surrogate (message e)).
    + cbn [fst snd log]. rewrite posts_app, Hd. split; [reflexivity|right; reflexivity].
    + destruct (Hfalse {| self := with_session (self fresh) (Some sid)
                                    (message_url (self fresh));
                          log := log m0 ++ d |}) as [H1 H2].
      { cbn [log]. rewrite posts_app, Hd. reflexivity. }
      split; [exact H1|left; exact H2].
  - intros _. destruct Hrun as [r [Hrun Hr]]. unfold bind. rewrite Hrun.
    destruct Hr as [-> | ->].
    + destruct (Hfalse (logged m0 d)) as [H1 H2].
      { cbn [log logged]. rewrite posts_app, Hd. reflexivity. }
      split; [exact H1|left; exact H2].
    + cbn [fst snd log logged]. rewrite posts_app, Hd.
      split; [reflexivity|right; reflexivity].
Qed.

(* ================================================================== *)
(** ** Where the script does raise *)

(** The ways in which a handshake has nothing to offer. *)
Lemma handshake_refused (E : env) (c : MCPSSEClient) :
  (forall e, requests_get E (sse_url c) sse_headers = Raise e -> handshake E c = None)
  /\ (forall resp,
        requests_get E (sse_url c) sse_headers = Return resp ->
        ((400 <= status_code resp < 600)%Z
         \/ events resp = SseClosed
         \/ (exists e, events resp = SseFails e)
         \/ (exists ev rest, events resp = SseNext ev rest /\ event ev <> "endpoint")
         \/ (exists ev rest, events resp = SseNext ev rest /\ endpoint_uri ev = None)) ->
        handshake E c = None).
Proof.
  unfold handshake. split.
  - intros e ->. reflexivity.
  - intros resp -> H.
    destruct (raise_for_status resp) as [[]|e] eqn:Hs; [|reflexivity].
    destruct H as [H|[H|[[e H]|[[ev [rest [H Hev]]]|[ev [rest [H Hev]]]]]]].
    + rewrite (raise_for_status_error resp H) in Hs. discriminate Hs.
    + rewrite H. reflexivity.
    + rewrite H. reflexivity.
    + rewrite H. unfold endpoint_uri.
      destruct (String.eqb_spec (event ev) "endpoint"); [contradiction|reflexivity].
    + rewrite H, Hev. reflexivity.
Qed.

(** An exception that is neither a [RequestException] nor a JSON decode
    error leaves [send_mcp_request] as it came. *)
Example send_mcp_request_propagates :
  fst (send_mcp_request
         (scripted 200 "/msg?session_id=abc123"
            [Return (garbled_response 200 "<html>" (Exn OtherException "unexpected"))])
         "tools/list" JNull 1 connected)
  = Raise (Exn OtherException "unexpected").
Proof. reflexivity. Qed.

(** A tool whose [name] is a number: the search loop of line 174 ends in a
    [TypeError]. *)
Example first_tool_named_number :
  first_tool_named "findByAgentId" [JObj [("name", JInt 7)]]
  = Raise (Exn TypeError "argument is not iterable").
Proof. reflexivity. Qed.

(* ================================================================== *)
(** ** The HTTP requests of the script *)

(** The handshake issues one request: the GET of line 27. *)
Lemma connect_sse_requests (E : env) (m : machine) :
  exists c d,
    snd (connect_sse E m) = {| self := c; log := log m ++ d |}
    /\ http_requests d = [HttpGet (sse_url (self m)) sse_headers].
Proof.
  destruct (connect_sse_spec E m) as [d [Hd [_ Hrun]]].
  destruct (handshake E (self m)) as [[sid [url|e]]|].
  - rewrite Hrun. eexists. exists d. split; [reflexivity|exact Hd].
  - rewrite Hrun. eexists. exists d. split; [reflexivity|exact Hd].
  - destruct Hrun as [r [Hrun _]]. rewrite Hrun.
    exists (self m), d. split; [reflexivity|exact Hd].
Qed.

Lemma connect_sse_get_only (E : env) (m : machine) :
  http_requests (log (snd (connect_sse E m)))
  = http_requests (log m) ++ [HttpGet (sse_url (self m)) sse_headers].
Proof.
  destruct (connect_sse_requests E m) as [c [d [Hrun Hd]]].
  rewrite Hrun. cbn [log]. rewrite http_requests_app, Hd. reflexivity.
Qed.

(** X1.  Whatever the server does, [connect_sse] issues exactly one HTTP
    request: the GET to the client's SSE URL with the headers
    [Accept: text/event-stream] and [Cache-Control: no-cache].  It returns
    [True] or [False], or it ends in the [UnicodeEncodeError] of the print
    of line 55, in the [except] clause; it raises nothing else, and it
    does not raise when the handshake stores a message URL. *)
Theorem connect_sse_one_get (E : env) (m : machine) :
  http_requests (log (snd (connect_sse E m)))
  = http_requests (log m) ++ [HttpGet (sse_url (self m)) sse_headers]
  /\ ((exists b, fst (connect_sse E m) = Return b)
      \/ fst (connect_sse E m) = Raise unicode_error)
  /\ (forall sid url, handshake E (self m) = Some (sid, Return url) ->
                      exists b, fst (connect_sse E m) = Return b).
Proof.
  split; [apply connect_sse_get_only|].
  destruct (connect_sse_spec E m) as [d [_ [_ Hrun]]].
  destruct (handshake E (self m)) as [[sid [url|e]]|].
  - rewrite Hrun. split; [left|intros _ _ _]; eexists; reflexivity.
  - rewrite Hrun. split; [|discriminate].
    destruct (has_surrogate (message e)); [right|left; eexists]; reflexivity.
  - destruct Hrun as [r [Hrun Hr]]. rewrite Hrun. split; [|discriminate].
    destruct Hr as [-> | ->]; [left; eexists|right]; reflexivity.
Qed.

Lemma posts_le_http_requests (l : list effect) :
  List.length (posts l) <= List.length (http_requests l).
Proof.
  unfold http_requests.
  induction l as [|e l IH]; [reflexivity|].
  destruct e; cbn [posts filter is_http List.length]; lia.
Qed.

Lemma main_start (E : env) :
  exists m0,
    main E = (connected <- connect_sse E ;;
              if negb connected then print PConnectFailed else after_connect E)%py m0
    /\ self m0 = self fresh
    /\ http_requests (log m0) = [].
Proof.
  rewrite main_banner. eexists. split; [reflexivity|]. split; reflexivity.
Qed.

(** X2.  Whatever the server does, [main] issues first the GET to
    [http://localhost:3000/mcp/<endpoint id>/sse], and after it at most four
    requests, each a POST to the message URL the handshake stored, with the
    JSON content type and a JSON-RPC 2.0 envelope with id 1. *)
Theorem main_requests (E : env) :
  exists reqs,
    http_requests (log (snd (main E)))
    = HttpGet (BASE_URL ++ "/mcp/" ++ ENDPOINT_ID ++ "/sse") sse_headers :: reqs
    /\ Forall (rpc_request (self (snd (main E)))) reqs
    /\ List.length reqs <= 4.
Proof.
  destruct (main_start E) as [m0 [Hmain [Hself Hlog]]]. rewrite Hmain.
  destruct (connect_sse_requests E m0) as [c [d [Hrun Hd]]].
  rewrite Hself in Hd. change (sse_url (self fresh)) with (BASE_URL ++ "/mcp/" ++ ENDPOINT_ID ++ "/sse")%string in Hd.
  unfold bind.
  destruct (connect_sse E m0) as [[b|e] m1]; cbn [snd] in Hrun; subst m1.
  - destruct b; cbn [negb].
    + destruct (issues_after_connect E {| self := c; log := log m0 ++ d |})
        as [out [Hout [Hall Hlen]]].
      rewrite Hout. cbn [snd log logged self] in *.
      exists (http_requests out).
      rewrite !http_requests_app, Hlog, Hd.
      split; [reflexivity|]. split; assumption.
    + exists []. rewrite print_run by reflexivity. cbn [snd log logged].
      rewrite !http_requests_app, Hlog, Hd.
      split; [reflexivity|]. split; [constructor|cbn; lia].
  - exists []. cbn [snd log]. rewrite !http_requests_app, Hlog, Hd.
    split; [reflexivity|]. split; [constructor|cbn; lia].
Qed.

(** X3.  When the handshake does not return [True], [main] stops there,
    and the GET is its only HTTP request: when [connect_sse] returns
    [False], [main] returns without raising and its last print is the
    failure message of line 150; when [connect_sse] raises, [main] ends in
    the same exception. *)
Theorem main_aborts_without_handshake (E : env) :
  fst (connect_sse E fresh) <> Return true ->
  http_requests (log (snd (main E))) = [HttpGet (sse_url (self fresh)) sse_headers]
  /\ (fst (connect_sse E fresh) = Return false ->
      fst (main E) = Return tt
      /\ exists before, log (snd (main E)) = before ++ [Print PConnectFailed])
  /\ (forall e, fst (connect_sse E fresh) = Raise e -> fst (main E) = Raise e).
Proof.
  intros Hfail.
  destruct (main_start E) as [m0 [Hmain [Hself Hlog]]]. rewrite Hmain.
  pose proof (connect_sse_get_only E m0) as Hget. rewrite Hself, Hlog in Hget.
  destruct (connect_sse_self E m0 fresh Hself) as [Hfst _].
  rewrite <- Hfst in *. unfold bind.
  destruct (connect_sse E m0) as [[[|]|e] m1]; cbn [fst snd negb] in *.
  - contradiction Hfail. reflexivity.
  - rewrite print_run by reflexivity. cbn [fst snd log logged].
    split; [rewrite http_requests_app, Hget; reflexivity|].
    split; [|discriminate].
    intros _. split; [reflexivity|]. exists (log m1). reflexivity.
  - split; [exact Hget|]. split; [discriminate|].
    intros e' He. injection He as <-. reflexivity.
Qed.

Lemma main_aborts_without_handshake_witness :
  fst (main unreachable) = Return tt
  /\ http_requests (log (snd (main unreachable)))
     = [HttpGet (sse_url (self fresh)) sse_headers].
Proof.
  destruct (main_aborts_without_handshake unreachable) as [H1 [H2 _]].
  - discriminate.
  - destruct (H2 eq_refl) as [H _]. split; assumption.
Defined.

(** A handshake that raises: [main] ends in the same exception, after the
    GET and without the failure message. *)
Example main_raises_with_handshake :
  fst (main rejected_uri_server) = Raise unicode_error
  /\ http_requests (log (snd (main rejected_uri_server)))
     = [HttpGet (sse_url (self fresh)) sse_headers]
  /\ ~ In (Print PConnectFailed) (log (snd (main rejected_uri_server))).
Proof.
  split; [reflexivity|]. split; [reflexivity|].
  vm_compute. intros H.
  repeat (destruct H as [H|H]; [discriminate H|]). exact H.
Qed.

(** X4.  After a successful handshake, with a server that fails only as
    requests documents and whose replies can be printed, [main] posts
    [initialize] and then [tools/list] to the message URL whatever
    [initialize] returned, and at most two further requests after them. *)
Theorem main_request_order (E : env) (sid url : string) :
  requests_contract E ->
  replies_printable E ->
  handshake E (self fresh) = Some (sid, Return url) ->
  url <> "" ->
  has_surrogate sid = false ->
  has_surrogate url = false ->
  exists rest,
    posts (log (snd (main E))) = (url, initialize_request) :: (url, list_request) :: rest
    /\ List.length rest <= 2.
Proof.
  intros HE HP Hh Hne Hsid Hsur.
  destruct (main_run E sid url HE HP Hh Hne Hsid Hsur) as [m2 [Hmain [_ [Hposts _]]]].
  cbv zeta in Hmain. rewrite Hmain.
  match goal with |- context [bind (after_list_tools E ?v) _] =>
    assert (Hissues : issues 2 (bind (after_list_tools E v) (fun _ => print PDone)))
  end.
  { apply (issues_bind 2 0); [apply issues_after_list_tools|intros _; apply issues_print]. }
  destruct (Hissues m2) as [out [Hout [_ Hlen]]]. rewrite Hout.
  cbn [log logged]. rewrite posts_app, Hposts. exists (posts out).
  split; [reflexivity|]. pose proof (posts_le_http_requests out). lia.
Qed.

Lemma main_request_order_witness :
  exists rest,
    posts (log (snd (main three_tools_server)))
    = ("http://localhost:3000/msg?session_id=abc123", initialize_request)
      :: ("http://localhost:3000/msg?session_id=abc123", list_request) :: rest
    /\ List.length rest <= 2.
Proof.
  apply (main_request_order three_tools_server "abc123"
           "http://localhost:3000/msg?session_id=abc123").
  - exact three_tools_server_contract.
  - exact three_tools_server_printable.
  - reflexivity.
  - discriminate.
  - reflexivity.
  - reflexivity.
Defined.

(* ================================================================== *)
(** ** The JSON-RPC methods, one by one *)



Lemma posts_after_send (E : env) (method : string) (params : json) (m : machine)
      (url : string) (heading : output) :
  message_url (self m) = Some url ->
  url <> "" ->
  posts (log (snd ((print heading ;; send_mcp_request E method params 1)%py m)))
  = posts (log m)
    ++ (if unprintable heading || has_surrogate url then []
        else [(url, envelope method (or_empty_dict params) 1)]).
Proof.
  intros Hurl Hne.
  destruct (unprintable heading) eqn:Hheading.
  { rewrite (bind_fails _ _ m _ _ (print_fails heading m Hheading)).
    cbn [snd orb]. rewrite app_nil_r. reflexivity. }
  rewrite (bind_run _ _ m _ tt (print_run heading m Hheading)). cbn [orb].
  destruct (has_surrogate url) eqn:Hsur.
  { rewrite (send_mcp_request_unprintable E method params 1 (logged m [Print heading]) url
               Hurl Hne Hsur).
    cbn [snd log logged]. rewrite posts_app. reflexivity. }
  destruct (send_mcp_request_log E method params 1 (logged m [Print heading]) url
              Hurl Hne Hsur)
    as [d Hd].
  rewrite Hd, logged_logged. cbn [log logged].
  rewrite !posts_app, posts_request_effects, posts_prints. reflexivity.
Qed.

(** X6.  With the message URL set, each [test_*] method posts exactly one
    request to it, whatever the server answers: [initialize] with the fixed
    protocol version and client info, [tools/list] with [params: {}],
    [tools/call] with [{name, arguments}] -- where absent or empty arguments
    both go out as [arguments: {}] -- and, for the agent variant,
    [arguments: {agentId}].  That is when the heading and the message URL
    can be printed (lines 120, 128, 73); no request is posted otherwise. *)
Theorem test_methods_post
        (E : env) (m : machine) (url : string) (tool_name arguments : json) (agent : string) :
  message_url (self m) = Some url ->
  url <> "" ->
  posts (log (snd (test_initialize E m)))
  = posts (log m) ++ (if has_surrogate url then [] else [(url, initialize_request)])
  /\ posts (log (snd (test_list_tools E m)))
     = posts (log m) ++ (if has_surrogate url then [] else [(url, list_request)])
  /\ posts (log (snd (test_call_tool E tool_name arguments m)))
     = posts (log m)
       ++ (if shown_surrogate tool_name || has_surrogate url then []
           else [(url, tools_call tool_name (if truthy arguments then arguments else JObj []))])
  /\ posts (log (snd (test_call_tool E tool_name JNull m)))
     = posts (log (snd (test_call_tool E tool_name (JObj []) m)))
  /\ posts (log (snd (test_call_tool_with_agent_id E tool_name agent m)))
     = posts (log m)
       ++ (if (shown_surrogate tool_name || has_surrogate agent) || has_surrogate url then []
           else [(url, tools_call tool_name (JObj [("agentId", JStr agent)]))]).
Proof.
  intros Hurl Hne.
  unfold test_initialize, test_list_tools, test_call_tool, test_call_tool_with_agent_id.
  rewrite !(posts_after_send E _ _ m url _ Hurl Hne).
  repeat split.
Qed.

Lemma test_methods_post_witness :
  posts (log (snd (test_call_tool unreachable (JStr "saveThing") JNull connected)))
  = [("http://localhost:3000/msg?session_id=abc123",
      tools_call (JStr "saveThing") (JObj []))].
Proof.
  destruct (test_methods_post unreachable connected
              "http://localhost:3000/msg?session_id=abc123" (JStr "saveThing") JNull agent_id)
    as [_ [_ [H _]]].
  - reflexivity.
  - discriminate.
  - exact H.
Defined.



(** The body [{"result": "\ud800"}]: parsed, and not returned. *)
Example send_mcp_request_unprintable_body :
  send_mcp_request surrogate_reply_server "initialize" initialize_params 1 connected
  = (Raise unicode_error,
     logged connected
       (request_effects "http://localhost:3000/msg?session_id=abc123" initialize_request
        ++ [Print (PStatus 200)])).
Proof. reflexivity. Qed.



(** X9.  The initialize step reports success on presence alone: an empty
    body (the success marker) and any non-empty object that can be printed
    -- a JSON-RPC error object included -- are returned by
    [test_initialize] after the one request of the step, and reported with
    the message of line 158. *)
Theorem initialize_success_is_presence
        (E : env) (m : machine) (url : string) (r : Response) :
  message_url (self m) = Some url ->
  url <> "" ->
  has_surrogate url = false ->
  requests_post E (List.length (posts (log m))) url initialize_request json_headers
  = Return r ->
  ~ (400 <= status_code r < 600)%Z ->
  (content r = ""
   \/ exists kv fields,
        content r <> ""
        /\ json_result r = Return (JObj (kv :: fields))
        /\ holds_surrogate (JObj (kv :: fields)) = false) ->
  exists out,
    test_initialize E m = (Return (returned (Return r)), logged m out)
    /\ step_initialize E m = (Return tt, logged m (out ++ [Print PInitOk]))
    /\ posts out = [(url, initialize_request)].
Proof.
  intros Hurl Hne Hsur Hpost Hstatus Hbody.
  assert (Hposts : posts (log (logged m [Print PTestInitialize])) = posts (log m)).
  { cbn [log logged]. rewrite posts_app. apply app_nil_r. }
  assert (Hrun : exists d,
             test_initialize E m
             = (Return (returned (Return r)),
                logged m ([Print PTestInitialize]
                          ++ request_effects url initialize_request ++ map Print d))
             /\ truthy (returned (Return r)) = true).
  { unfold test_initialize.
    rewrite (bind_run _ _ m _ tt (print_run PTestInitialize m eq_refl)).
    rewrite (send_mcp_request_run E "initialize" initialize_params 1
               (logged m [Print PTestInitialize]) url Hurl Hne Hsur).
    cbv zeta. rewrite Hposts.
    change (envelope "initialize" (or_empty_dict initialize_params) 1) with initialize_request.
    rewrite Hpost, send_mcp_request_read_cases. unfold returned.
    rewrite (raise_for_status_pass r Hstatus).
    destruct Hbody as [Hempty|[kv [fields [Hcontent [Hjson Hv]]]]].
    - rewrite Hempty. cbn [String.eqb]. rewrite !logged_logged.
      exists [PStatusNoContent (status_code r)]. split; reflexivity.
    - destruct (String.eqb_spec (content r) ""); [contradiction|].
      rewrite Hjson, Hv, !logged_logged.
      exists [PStatus (status_code r); PResponseContent (JObj (kv :: fields))].
      split; reflexivity. }
  destruct Hrun as [d [Hrun Htruthy]].
  eexists. split; [exact Hrun|]. split.
  - unfold step_initialize. rewrite (bind_run _ _ m _ _ Hrun), Htruthy.
    rewrite print_run, logged_logged by reflexivity. reflexivity.
  - rewrite (posts_issue url _ [Print PTestInitialize] d). reflexivity.
Qed.

Lemma initialize_success_is_presence_witness :
  exists out,
    step_initialize
      (scripted 200 "/msg?session_id=abc123"
         [Return (json_response 200 ("{" ++ quoted "error" ++ ": {}}")
                    (JObj [("error", JObj [])]))])
      connected
    = (Return tt, logged connected (out ++ [Print PInitOk]))
    /\ posts out = [("http://localhost:3000/msg?session_id=abc123", initialize_request)].
Proof.
  destruct (initialize_success_is_presence
              (scripted 200 "/msg?session_id=abc123"
                 [Return (json_response 200 ("{" ++ quoted "error" ++ ": {}}")
                            (JObj [("error", JObj [])]))])
              connected "http://localhost:3000/msg?session_id=abc123"
              (json_response 200 ("{" ++ quoted "error" ++ ": {}}") (JObj [("error", JObj [])])))
    as [out [_ [Hstep Hposts]]].
  - reflexivity.
  - discriminate.
  - reflexivity.
  - reflexivity.
  - simpl; lia.
  - right. exists ("error", JObj []), []. split; [discriminate|]. split; reflexivity.
  - exists out. split; [exact Hstep|exact Hposts].
Defined.

(* ================================================================== *)
(** ** The stored session identifier, for every uri *)

Lemma prefix_split (a s : string) :
  String.prefix a s = true -> exists rest, s = (a ++ rest)%string.
Proof.
  revert s. induction a as [|x a IH]; intros s H.
  - exists s. reflexivity.
  - destruct s as [|y s]; [discriminate H|]. cbn [String.prefix] in H.
    destruct (ascii_dec x y) as [->|]; [|discriminate H].
    destruct (IH s H) as [rest ->]. exists rest. reflexivity.
Qed.

Lemma prefix_extend (a b t : string) :
  String.prefix a b = true -> String.prefix a (b ++ t) = true.
Proof.
  revert b. induction a as [|x a IH]; intros b H.
  - destruct (b ++ t)%string; reflexivity.
  - destruct b as [|y b]; [discriminate H|].
    cbn [String.prefix String.append] in *.
    destruct (ascii_dec x y); [apply IH; exact H|discriminate H].
Qed.

(** A string that contains [sep] splits at its first occurrence. *)
Lemma first_occurrence (sep s : string) :
  sep <> "" ->
  contains sep s = true ->
  exists pre rest, s = (pre ++ sep ++ rest)%string /\ contains sep pre = false.
Proof.
  intros Hsep. induction s as [|c s IH]; intros H.
  - destruct sep; [contradiction|discriminate H].
  - rewrite contains_cons in H.
    destruct (String.prefix sep (String c s)) eqn:Hp.
    + destruct (prefix_split _ _ Hp) as [rest Hrest].
      exists "", rest. split; [exact Hrest|].
      destruct sep; [contradiction|reflexivity].
    + destruct (IH H) as [pre [rest [-> Hpre]]].
      exists (String c pre), rest. split; [reflexivity|].
      rewrite contains_cons, Hpre.
      destruct (String.prefix sep (String c pre)) eqn:Hq; [|reflexivity].
      apply (prefix_extend _ _ (sep ++ rest)) in Hq.
      cbn [String.append] in Hq. rewrite Hq in Hp. discriminate Hp.
Qed.

Lemma session_id_position (uri : string) :
  contains "session_id=" uri = true ->
  exists pre tail,
    uri = (pre ++ "session_id=" ++ nth 1 (split uri "session_id=") "" ++ tail)%string
    /\ contains "session_id=" pre = false
    /\ contains "session_id=" (nth 1 (split uri "session_id=") "") = false
    /\ (tail = "" \/ exists more, tail = ("session_id=" ++ more)%string).
Proof.
  intros H.
  destruct (first_occurrence "session_id=" uri ltac:(discriminate) H) as [pre [rest [-> Hpre]]].
  destruct (contains "session_id=" rest) eqn:Hrest.
  - destruct (first_occurrence "session_id=" rest ltac:(discriminate) Hrest)
      as [X [more [-> HX]]].
    assert (Htail : ("session_id=" ++ more)%string = ""
                    \/ exists more', ("session_id=" ++ more)%string
                                     = ("session_id=" ++ more')%string).
    { right. exists more. reflexivity. }
    rewrite (split_session_id pre X ("session_id=" ++ more) Hpre HX Htail).
    exists pre, ("session_id=" ++ more)%string. repeat split; auto.
  - assert (Htail : "" = "" \/ exists more, "" = ("session_id=" ++ more)%string)
      by (left; reflexivity).
    pose proof (split_session_id pre rest "" Hpre Hrest Htail) as Hsid.
    rewrite append_empty in Hsid. rewrite Hsid.
    exists pre, "". rewrite append_empty. repeat split; auto.
Qed.

(** X10.  Whenever the handshake succeeds, the session identifier it stored
    sits in the uri of the first event right behind the first [session_id=]
    and ends at the next [session_id=] or at the end of the uri: it never
    contains [session_id=] itself; and the message URL is what [urljoin]
    made of the base address and that uri. *)
Theorem connect_sse_stored_session (E : env) (m : machine) :
  fst (connect_sse E m) = Return true ->
  exists resp ev rest uri pre sid tail url,
    requests_get E (sse_url (self m)) sse_headers = Return resp
    /\ events resp = SseNext ev rest
    /\ endpoint_uri ev = Some uri
    /\ uri = (pre ++ "session_id=" ++ sid ++ tail)%string
    /\ contains "session_id=" pre = false
    /\ contains "session_id=" sid = false
    /\ (tail = "" \/ exists more, tail = ("session_id=" ++ more)%string)
    /\ urljoin E (base_url (self m)) uri = Return url
    /\ session_id (self (snd (connect_sse E m))) = Some sid
    /\ message_url (self (snd (connect_sse E m))) = Some url.
Proof.
  intros Htrue.
  destruct (connect_sse_spec E m) as [d [_ [_ Hrun]]]. unfold handshake in Hrun.
  assert (Hnone : (exists r, connect_sse E m = (r, logged m d)
                             /\ (r = Return false \/ r = Raise unicode_error)) -> False).
  { intros [r [Hr [-> | ->]]]; rewrite Hr in Htrue; discriminate Htrue. }
  destruct (requests_get E (sse_url (self m)) sse_headers) as [resp|e];
    [|contradiction (Hnone Hrun)].
  destruct (raise_for_status resp) as [[]|e]; [|contradiction (Hnone Hrun)].
  destruct (events resp) as [|e|ev rest] eqn:Hev; try contradiction (Hnone Hrun).
  destruct (endpoint_uri ev) as [uri|] eqn:Huri; [|contradiction (Hnone Hrun)].
  destruct (urljoin E (base_url (self m)) uri) as [url|e] eqn:Hjoin.
  2:{ rewrite Hrun in Htrue. cbn [fst] in Htrue.
      destruct (has_surrogate (message e)); discriminate Htrue. }
  assert (Hcontains : contains "session_id=" uri = true).
  { unfold endpoint_uri in Huri.
    destruct (String.eqb (event ev) "endpoint"); [|discriminate Huri].
    destruct (data_json ev) as [[| | | | | |fields]|]; try discriminate Huri.
    destruct (lookup "uri" fields) as [[| | | |s| |]|]; try discriminate Huri.
    destruct (contains "session_id=" s) eqn:Hc; [|discriminate Huri].
    injection Huri as <-. exact Hc. }
  destruct (session_id_position uri Hcontains) as [pre [tail [Hdec [Hpre [Hsid Htail]]]]].
  exists resp, ev, rest, uri, pre, (nth 1 (split uri "session_id=") ""), tail, url.
  rewrite Hrun. cbn [snd self with_session session_id message_url].
  repeat split; auto.
Qed.

Lemma connect_sse_stored_session_witness :
  exists resp ev rest uri pre sid tail url,
    requests_get (scripted 200 "/msg?session_id=abc&session_id=def" [])
      (sse_url (self fresh)) sse_headers = Return resp
    /\ events resp = SseNext ev rest
    /\ endpoint_uri ev = Some uri
    /\ uri = (pre ++ "session_id=" ++ sid ++ tail)%string
    /\ contains "session_id=" pre = false
    /\ contains "session_id=" sid = false
    /\ (tail = "" \/ exists more, tail = ("session_id=" ++ more)%string)
    /\ urljoin (scripted 200 "/msg?session_id=abc&session_id=def" [])
         (base_url (self fresh)) uri = Return url
    /\ session_id (self (snd (connect_sse
                                (scripted 200 "/msg?session_id=abc&session_id=def" []) fresh)))
       = Some sid
    /\ message_url (self (snd (connect_sse
                                 (scripted 200 "/msg?session_id=abc&session_id=def" []) fresh)))
       = Some url.
Proof.
  apply (connect_sse_stored_session
           (scripted 200 "/msg?session_id=abc&session_id=def" []) fresh).
  reflexivity.
Defined.

Example connect_sse_two_session_ids :
  session_id (self (snd (connect_sse
                           (scripted 200 "/msg?session_id=abc&session_id=def" []) fresh)))
  = Some "abc&".
Proof. reflexivity. Qed.

(* ================================================================== *)
(** ** Results of tools/list that are not as expected *)

Ltac settled :=
  right; eexists; split;
  [ reflexivity | first [ left; reflexivity | right; eexists; reflexivity ] ].

(** X11.  Lines 164-218 reach the tool calls only for a result that is a
    dict whose [result] is a dict whose [tools] is truthy.  On every other
    result they print the report on tools/list and nothing else, issue no
    request, and either return or raise a [TypeError] (a result, or a
    [result], that is a number, a boolean or [null], or a list or string in
    which the key is found). *)
Theorem after_list_tools_cases (E : env) (tools_result : json) (m : machine) :
  (exists fields rf tools,
      tools_result = JObj fields
      /\ lookup "result" fields = Some (JObj rf)
      /\ lookup "tools" rf = Some tools
      /\ truthy tools = true
      /\ after_list_tools E tools_result m = call_tools E tools (logged m [Print PListOk]))
  \/ (exists r,
         after_list_tools E tools_result m
         = (r, logged m [Print (if truthy tools_result then PListOk else PListFailed)])
         /\ (r = Return tt \/ exists msg, r = Raise (Exn TypeError msg))).
Proof.
  unfold after_list_tools.
  destruct (truthy tools_result) eqn:Htruthy; [|settled].
  rewrite (bind_run _ _ m _ tt (print_run PListOk m eq_refl)).
  unfold bind, lift.
  destruct tools_result as [|b|z|f|s|items|fields]; cbn [py_in py_getitem];
    try settled.
  - destruct (contains "result" s); settled.
  - destruct (existsb (eq_str "result") items); settled.
  - unfold has_key. destruct (lookup "result" fields) as [v|] eqn:Hresult; [|settled].
    destruct v as [|b|z|f|s|items|rf]; cbn [py_in py_getitem]; try settled.
    + destruct (contains "tools" s); settled.
    + destruct (existsb (eq_str "tools") items); settled.
    + unfold has_key. destruct (lookup "tools" rf) as [tools|] eqn:Htools; [|settled].
      destruct (truthy tools) eqn:Ht; [|settled].
      left. exists fields, rf, tools. repeat split; auto.
Qed.

(** X12.  [tools] has to be a list: on a truthy [tools] of any other kind
    (a dict, a string, a number, [true]) lines 171-176 raise -- an
    [AttributeError] from [tool.get], a [TypeError] from the loop -- before
    anything is printed or sent. *)
Theorem call_tools_needs_a_list (E : env) (tools : json) (m : machine) :
  truthy tools = true ->
  (forall items, tools <> JArr items) ->
  exists e,
    call_tools E tools m = (Raise e, m)
    /\ (class_of e = TypeError \/ class_of e = AttributeError).
Proof.
  intros Htruthy Hlist. unfold call_tools, bind, lift.
  destruct tools as [|b|z|f|s|items|fields]; cbn [py_iter];
    try (eexists; split; [reflexivity|left; reflexivity]).
  - destruct s as [|c s]; [discriminate Htruthy|].
    eexists. split; [reflexivity|right; reflexivity].
  - exfalso. apply (Hlist items). reflexivity.
  - destruct fields as [|kv fields]; [discriminate Htruthy|].
    eexists. split; [reflexivity|right; reflexivity].
Qed.

Lemma call_tools_needs_a_list_witness :
  exists e,
    call_tools unreachable (JObj [("findByAgentId", tool "findByAgentId")]) connected
    = (Raise e, connected)
    /\ (class_of e = TypeError \/ class_of e = AttributeError).
Proof.
  apply (call_tools_needs_a_list unreachable
           (JObj [("findByAgentId", tool "findByAgentId")]) connected).
  - reflexivity.
  - intros items. discriminate.
Defined.

(* ================================================================== *)
(** ** The search loops *)

(** X13.  The search loops stop at the first tool whose name contains the
    needle: when the tools before it are dicts with a [str] name, or none,
    that does not contain the needle, that tool is the result, and the
    tools behind it are not looked at -- they can be anything. *)
Theorem first_tool_named_first_match
        (needle : string) (before : list json) (t : json) (behind : list json) :
  needle <> "" ->
  forallb plain_tool before = true ->
  none_named needle before = true ->
  name_has needle t = true ->
  first_tool_named needle (before ++ t :: behind) = Return t.
Proof.
  intros Hne Hplain Hnone Ht.
  induction before as [|b before IH].
  - cbn [app first_tool_named].
    destruct t as [| | | | | |fields]; try discriminate Ht.
    cbn [name_has] in Ht. cbn [py_get rbind].
    destruct (lookup "name" fields) as [[| | | |s| |]|]; try discriminate Ht.
    cbn [py_in rbind]. rewrite Ht. reflexivity.
  - cbn [forallb] in Hplain. apply andb_prop in Hplain. destruct Hplain as [Hb Hplain].
    unfold none_named in Hnone. cbn [forallb] in Hnone.
    apply andb_prop in Hnone. destruct Hnone as [Hnb Hnone].
    cbn [app first_tool_named].
    destruct b as [| | | | | |fields]; try discriminate Hb.
    cbn [plain_tool] in Hb. cbn [name_has] in Hnb. cbn [py_get rbind].
    destruct (lookup "name" fields) as [[| | | |s| |]|]; try discriminate Hb;
      cbn [py_in rbind].
    + destruct (contains needle s); [discriminate Hnb|]. apply IH; assumption.
    + rewrite (contains_in_empty needle Hne). apply IH; assumption.
Qed.

Lemma first_tool_named_first_match_witness :
  first_tool_named "save"
    ([tool "a"; JObj [("description", JStr "no name")]]
       ++ tool "saveThing" :: [JInt 7; tool "saveOther"])
  = Return (tool "saveThing").
Proof.
  apply (first_tool_named_first_match "save"
           [tool "a"; JObj [("description", JStr "no name")]]
           (tool "saveThing") [JInt 7; tool "saveOther"]).
  - discriminate.
  - reflexivity.
  - reflexivity.
  - reflexivity.
Defined.

(* ================================================================== *)
(** ** What a failed handshake prints *)

(** X14.  A handshake that fails by an exception prints the diagnostic of
    line 55 with that exception: a failed GET, a 4xx or 5xx status, a
    stream that breaks -- and when the message of the exception cannot be
    printed, that print raises [UnicodeEncodeError] out of the [except]
    clause.  A handshake that fails without an exception prints no
    diagnostic of its own: a stream that ends before its first event leaves
    the connecting message and the GET only, a first event of another type
    adds just the line that shows the event. *)
Theorem connect_sse_diagnostics (E : env) (m : machine) :
  let start := [Print (PConnecting (sse_url (self m)));
                HttpGet (sse_url (self m)) sse_headers] in
  (forall e,
      requests_get E (sse_url (self m)) sse_headers = Raise e ->
      connect_sse E m
      = if has_surrogate (message e) then (Raise unicode_error, logged m start)
        else (Return false, logged m (start ++ [Print (PSseError e)])))
  /\ (forall resp,
         requests_get E (sse_url (self m)) sse_headers = Return resp ->
         (400 <= status_code resp < 600)%Z ->
         connect_sse E m
         = (Return false,
            logged m (start ++ [Print (PSseError (Exn HTTPError "HTTP error status"))])))
  /\ (forall resp,
         requests_get E (sse_url (self m)) sse_headers = Return resp ->
         ~ (400 <= status_code resp < 600)%Z ->
         (forall e,
             events resp = SseFails e ->
             connect_sse E m
             = if has_surrogate (message e) then (Raise unicode_error, logged m start)
               else (Return false, logged m (start ++ [Print (PSseError e)])))
         /\ (events resp = SseClosed ->
             connect_sse E m = (Return false, logged m start))
         /\ (forall ev rest,
                events resp = SseNext ev rest ->
                event ev <> "endpoint" ->
                connect_sse E m
                = (Return false,
                   logged m (start ++ [Print (PSseEvent (event ev) (data ev))])))).
Proof.
  cbv zeta. rewrite connect_sse_unfold. cbv zeta.
  assert (Hhandler : forall e,
             (print (PSseError e) ;; ret false)%py
               (logged m [Print (PConnecting (sse_url (self m)));
                          HttpGet (sse_url (self m)) sse_headers])
             = if has_surrogate (message e)
               then (Raise unicode_error,
                     logged m [Print (PConnecting (sse_url (self m)));
                               HttpGet (sse_url (self m)) sse_headers])
               else (Return false,
                     logged m ([Print (PConnecting (sse_url (self m)));
                                HttpGet (sse_url (self m)) sse_headers]
                               ++ [Print (PSseError e)]))).
  { intros e. rewrite connect_sse_handler.
    destruct (has_surrogate (message e)); [reflexivity|].
    rewrite logged_logged. reflexivity. }
  split; [|split].
  - intros e ->. apply Hhandler.
  - intros resp -> Hstatus. rewrite (raise_for_status_error resp Hstatus).
    apply (Hhandler (Exn HTTPError "HTTP error status")).
  - intros resp -> Hstatus. rewrite (raise_for_status_pass resp Hstatus).
    split; [|split].
    + intros e ->. apply Hhandler.
    + intros ->. reflexivity.
    + intros ev rest -> Hevent.
      unfold connect_sse_event.
      unfold bind at 1. rewrite print_run by reflexivity.
      destruct (String.eqb_spec (event ev) "endpoint"); [contradiction|].
      unfold ret. rewrite logged_logged. reflexivity.
Qed.
